(** * Usage aggregate store of the Gemini usage integration

    A shallow embedding of [custom_components/ha_gemini_usage/coordinator.py]
    and of the sensor reads of [sensor.py], with the part of Python's
    [datetime] module the coordinator relies on, and the properties of the
    period-rollover accounting model. *)

From Stdlib Require Import ZArith Lia Bool List Ascii Permutation.
From stdpp Require Import gmap strings fin_maps.

Local Open Scope Z_scope.

(** ** Python's [datetime], as far as the coordinator uses it

    The definitions follow the pure-Python implementation of the standard
    library: proleptic Gregorian ordinals ([_ymd2ord], [_ord2ymd]),
    normalised [timedelta] values, [datetime.__add__] and [__sub__] with
    their [OverflowError], field-wise [replace], [weekday] and the
    lexicographic comparison.  All instants of the integration come from
    [dt_util.utcnow()] and carry the same UTC [tzinfo], which is left out. *)
Module PyDatetime.

Definition MINYEAR : Z := 1.
Definition MAXYEAR : Z := 9999.
Definition _MAXORDINAL : Z := 3652059.

(** [_DAYS_IN_MONTH] and [_DAYS_BEFORE_MONTH]: index 0 holds the placeholder
    -1; indices outside 0..12 are never used. *)
Definition _DAYS_IN_MONTH (m : Z) : Z :=
  match m with
  | 1 => 31 | 2 => 28 | 3 => 31 | 4 => 30 | 5 => 31 | 6 => 30
  | 7 => 31 | 8 => 31 | 9 => 30 | 10 => 31 | 11 => 30 | 12 => 31
  | _ => -1
  end.

Definition _DAYS_BEFORE_MONTH (m : Z) : Z :=
  match m with
  | 1 => 0 | 2 => 31 | 3 => 59 | 4 => 90 | 5 => 120 | 6 => 151
  | 7 => 181 | 8 => 212 | 9 => 243 | 10 => 273 | 11 => 304 | 12 => 334
  | _ => -1
  end.

Definition _is_leap (year : Z) : bool :=
  (year mod 4 =? 0) && (negb (year mod 100 =? 0) || (year mod 400 =? 0)).

Definition _days_before_year (year : Z) : Z :=
  let y := year - 1 in
  y * 365 + y / 4 - y / 100 + y / 400.

Definition _days_in_month (year month : Z) : Z :=
  if (month =? 2) && _is_leap year then 29 else _DAYS_IN_MONTH month.

Definition _days_before_month (year month : Z) : Z :=
  _DAYS_BEFORE_MONTH month + (if (2 <? month) && _is_leap year then 1 else 0).

Definition _ymd2ord (year month day : Z) : Z :=
  _days_before_year year + _days_before_month year month + day.

Definition _DI400Y : Z := Eval cbv in _days_before_year 401.
Definition _DI100Y : Z := Eval cbv in _days_before_year 101.
Definition _DI4Y : Z := Eval cbv in _days_before_year 5.

Definition _ord2ymd (n : Z) : Z * Z * Z :=
  let n := n - 1 in
  let n400 := n / _DI400Y in
  let n := n mod _DI400Y in
  let year := n400 * 400 + 1 in
  let n100 := n / _DI100Y in
  let n := n mod _DI100Y in
  let n4 := n / _DI4Y in
  let n := n mod _DI4Y in
  let n1 := n / 365 in
  let n := n mod 365 in
  let year := year + (n100 * 100 + n4 * 4 + n1) in
  if (n1 =? 4) || (n100 =? 4) then (year - 1, 12, 31)
  else
    let leapyear := (n1 =? 3) && (negb (n4 =? 24) || (n100 =? 3)) in
    let month := Z.shiftr (n + 50) 5 in
    let preceding :=
      _DAYS_BEFORE_MONTH month + (if (2 <? month) && leapyear then 1 else 0) in
    if n <? preceding then
      let month := month - 1 in
      let preceding :=
        preceding
        - (_DAYS_IN_MONTH month + (if (month =? 2) && leapyear then 1 else 0)) in
      (year, month, n - preceding + 1)
    else (year, month, n - preceding + 1).

Record datetime : Set := mkdatetime {
  year : Z; month : Z; day : Z;
  hour : Z; minute : Z; second : Z; microsecond : Z
}.

(** The range checks of the [datetime] constructor: every Python
    [datetime] object satisfies them. *)
Definition valid_datetime (d : datetime) : Prop :=
  MINYEAR <= year d <= MAXYEAR /\
  1 <= month d <= 12 /\
  1 <= day d <= _days_in_month (year d) (month d) /\
  0 <= hour d < 24 /\ 0 <= minute d < 60 /\ 0 <= second d < 60 /\
  0 <= microsecond d < 1000000.

(** A [timedelta], normalised as Python keeps it:
    [0 <= seconds < 86400] and [0 <= microseconds < 1000000]. *)
Record timedelta : Set := mktimedelta {
  days : Z; seconds : Z; microseconds : Z
}.

(** [timedelta(days=..., seconds=..., microseconds=...)] with the carries
    of the constructor ([divmod] is the floor division of [Z]). *)
Definition timedelta_new (d s us : Z) : timedelta :=
  let s := s + us / 1000000 in
  let us := us mod 1000000 in
  let d := d + s / 86400 in
  let s := s mod 86400 in
  mktimedelta d s us.

Definition timedelta_days (n : Z) : timedelta := timedelta_new n 0 0.
Definition timedelta_weeks (n : Z) : timedelta := timedelta_new (7 * n) 0 0.

Definition timedelta_add (a b : timedelta) : timedelta :=
  timedelta_new (days a + days b) (seconds a + seconds b)
                (microseconds a + microseconds b).

Definition timedelta_neg (a : timedelta) : timedelta :=
  timedelta_new (- days a) (- seconds a) (- microseconds a).

Definition toordinal (d : datetime) : Z := _ymd2ord (year d) (month d) (day d).

(** [date.weekday()]: Monday is 0, Sunday is 6. *)
Definition weekday (d : datetime) : Z := (toordinal d + 6) mod 7.

(** [datetime.__add__]; [None] stands for the [OverflowError] raised when
    the resulting day is outside [1 .. _MAXORDINAL]. *)
Definition datetime_add (d : datetime) (other : timedelta) : option datetime :=
  let delta :=
    timedelta_add
      (timedelta_new (toordinal d)
                     (hour d * 3600 + minute d * 60 + second d)
                     (microsecond d))
      other in
  let hour := seconds delta / 3600 in
  let rem := seconds delta mod 3600 in
  let minute := rem / 60 in
  let second := rem mod 60 in
  if (0 <? days delta) && (days delta <=? _MAXORDINAL) then
    let '(y, m, dd) := _ord2ymd (days delta) in
    Some (mkdatetime y m dd hour minute second (microseconds delta))
  else None.

(** [datetime.__sub__] with a [timedelta] operand: [self + -other]. *)
Definition datetime_sub (d : datetime) (other : timedelta) : option datetime :=
  datetime_add d (timedelta_neg other).

(** [replace(hour=0, minute=0, second=0, microsecond=0)]. *)
Definition replace_time0 (d : datetime) : datetime :=
  mkdatetime (year d) (month d) (day d) 0 0 0 0.

(** [replace(day=1, hour=0, minute=0, second=0, microsecond=0)]. *)
Definition replace_day1_time0 (d : datetime) : datetime :=
  mkdatetime (year d) (month d) 1 0 0 0 0.

(** [datetime._cmp]: the seven fields compared as a tuple. *)
Definition datetime_cmp (a b : datetime) : comparison :=
  match year a ?= year b with
  | Eq =>
    match month a ?= month b with
    | Eq =>
      match day a ?= day b with
      | Eq =>
        match hour a ?= hour b with
        | Eq =>
          match minute a ?= minute b with
          | Eq =>
            match second a ?= second b with
            | Eq => microsecond a ?= microsecond b
            | c => c
            end
          | c => c
          end
        | c => c
        end
      | c => c
      end
    | c => c
    end
  | c => c
  end.

(** [a >= b]. *)
Definition datetime_ge (a b : datetime) : bool :=
  match datetime_cmp a b with Lt => false | _ => true end.

End PyDatetime.

Import PyDatetime.
Local Open Scope string_scope.
Local Open Scope Z_scope.

(** ** The store: [usage_data] of [GeminiUsageDataUpdateCoordinator] *)

(** The per-model dictionary built by the [defaultdict] factory of
    [__init__]: twelve integer counters under fixed keys. *)
Record ModelStats : Set := mkModelStats {
  input_tokens : Z; output_tokens : Z; total_tokens : Z;
  daily_input_tokens : Z; daily_output_tokens : Z; daily_total_tokens : Z;
  weekly_input_tokens : Z; weekly_output_tokens : Z; weekly_total_tokens : Z;
  monthly_input_tokens : Z; monthly_output_tokens : Z; monthly_total_tokens : Z
}.

(** The value of the factory [lambda] of the [defaultdict]. *)
Definition default_model_stats : ModelStats :=
  mkModelStats 0 0 0 0 0 0 0 0 0 0 0 0.

Record UsageData : Type := mkUsageData {
  total_requests : Z;
  daily_requests : Z;
  weekly_requests : Z;
  monthly_requests : Z;
  last_reset_daily : datetime;
  last_reset_weekly : datetime;
  last_reset_monthly : datetime;
  models : gmap string ModelStats
}.

(** [defaultdict.__getitem__]: a missing key is inserted with the factory's
    value before it is returned; the second component is the dictionary
    after the access. *)
Definition defaultdict_getitem (key : string) (m : gmap string ModelStats)
  : ModelStats * gmap string ModelStats :=
  match m !! key with
  | Some v => (v, m)
  | None => (default_model_stats, <[key := default_model_stats]> m)
  end.

(** [dict.get] on a per-model dictionary and on [usage_data] (integer
    entries): [None] for a key the dictionary does not have. *)
Definition model_get (key : string) (st : ModelStats) : option Z :=
  if String.eqb key "input_tokens" then Some (input_tokens st)
  else if String.eqb key "output_tokens" then Some (output_tokens st)
  else if String.eqb key "total_tokens" then Some (total_tokens st)
  else if String.eqb key "daily_input_tokens" then Some (daily_input_tokens st)
  else if String.eqb key "daily_output_tokens" then Some (daily_output_tokens st)
  else if String.eqb key "daily_total_tokens" then Some (daily_total_tokens st)
  else if String.eqb key "weekly_input_tokens" then Some (weekly_input_tokens st)
  else if String.eqb key "weekly_output_tokens" then Some (weekly_output_tokens st)
  else if String.eqb key "weekly_total_tokens" then Some (weekly_total_tokens st)
  else if String.eqb key "monthly_input_tokens" then Some (monthly_input_tokens st)
  else if String.eqb key "monthly_output_tokens" then Some (monthly_output_tokens st)
  else if String.eqb key "monthly_total_tokens" then Some (monthly_total_tokens st)
  else None.

Definition usage_get_int (key : string) (u : UsageData) : option Z :=
  if String.eqb key "total_requests" then Some (total_requests u)
  else if String.eqb key "daily_requests" then Some (daily_requests u)
  else if String.eqb key "weekly_requests" then Some (weekly_requests u)
  else if String.eqb key "monthly_requests" then Some (monthly_requests u)
  else None.

Definition usage_get_datetime (key : string) (u : UsageData) : option datetime :=
  if String.eqb key "last_reset_daily" then Some (last_reset_daily u)
  else if String.eqb key "last_reset_weekly" then Some (last_reset_weekly u)
  else if String.eqb key "last_reset_monthly" then Some (last_reset_monthly u)
  else None.

(** ** [get_period_start] *)
Definition get_period_start (period : string) (now : datetime) : option datetime :=
  if String.eqb period "daily" then
    Some (replace_time0 now)
  else if String.eqb period "weekly" then
    let start_of_day := replace_time0 now in
    datetime_sub start_of_day (timedelta_days (weekday start_of_day))
  else if String.eqb period "monthly" then
    Some (replace_day1_time0 now)
  else Some now.

(** ** [__init__]: the store created at instant [now] *)
Definition init (now : datetime) : option UsageData :=
  d ← get_period_start "daily" now;
  w ← get_period_start "weekly" now;
  m ← get_period_start "monthly" now;
  Some (mkUsageData 0 0 0 0 d w m ∅).

(** The bodies of the three [for model in ...values()] loops. *)
Definition zero_daily (model : ModelStats) : ModelStats :=
  mkModelStats
    (input_tokens model) (output_tokens model) (total_tokens model)
    0 0 0
    (weekly_input_tokens model) (weekly_output_tokens model) (weekly_total_tokens model)
    (monthly_input_tokens model) (monthly_output_tokens model) (monthly_total_tokens model).

Definition zero_weekly (model : ModelStats) : ModelStats :=
  mkModelStats
    (input_tokens model) (output_tokens model) (total_tokens model)
    (daily_input_tokens model) (daily_output_tokens model) (daily_total_tokens model)
    0 0 0
    (monthly_input_tokens model) (monthly_output_tokens model) (monthly_total_tokens model).

Definition zero_monthly (model : ModelStats) : ModelStats :=
  mkModelStats
    (input_tokens model) (output_tokens model) (total_tokens model)
    (daily_input_tokens model) (daily_output_tokens model) (daily_total_tokens model)
    (weekly_input_tokens model) (weekly_output_tokens model) (weekly_total_tokens model)
    0 0 0.

(** ** [_reset_if_needed]

    [now] is the value of [dt_util.utcnow()] read at entry; [None] is the
    [OverflowError] of a [datetime] addition or subtraction. *)
Definition _reset_if_needed (now : datetime) (u : UsageData) : option UsageData :=
  (* Check daily reset *)
  due ← datetime_add (last_reset_daily u) (timedelta_days 1);
  u ← (if datetime_ge now due then
         start ← get_period_start "daily" now;
         Some (mkUsageData (total_requests u) 0 (weekly_requests u) (monthly_requests u)
                 start (last_reset_weekly u) (last_reset_monthly u)
                 (zero_daily <$> models u))
       else Some u);
  (* Check weekly reset *)
  due ← datetime_add (last_reset_weekly u) (timedelta_weeks 1);
  u ← (if datetime_ge now due then
         start ← get_period_start "weekly" now;
         Some (mkUsageData (total_requests u) (daily_requests u) 0 (monthly_requests u)
                 (last_reset_daily u) start (last_reset_monthly u)
                 (zero_weekly <$> models u))
       else Some u);
  (* Check monthly reset *)
  if negb (month now =? month (last_reset_monthly u)) then
    start ← get_period_start "monthly" now;
    Some (mkUsageData (total_requests u) (daily_requests u) (weekly_requests u) 0
            (last_reset_daily u) (last_reset_weekly u) start
            (zero_monthly <$> models u))
  else Some u.

(** ** [_async_update_data]: the scheduled refresh.  The dictionary it
    returns is [usage_data] itself. *)
Definition _async_update_data (now : datetime) (u : UsageData) : option UsageData :=
  _reset_if_needed now u.

(** ** [update_usage_stats] *)

(** The [usage_metadata] of a response: each count may be missing, in which
    case [getattr(usage, ..., 0)] yields 0. *)
Record UsageMetadata : Set := mkUsageMetadata {
  prompt_token_count : option Z;
  candidates_token_count : option Z;
  total_token_count : option Z
}.

(** The reported result: [usage_metadata] is [None] when the object has no
    such attribute. *)
Record Result : Set := mkResult { usage_metadata : option UsageMetadata }.

Definition getattr0 (field : option Z) : Z := default 0 field.

Definition add_tokens (i o t : Z) (model_stats : ModelStats) : ModelStats :=
  mkModelStats
    (input_tokens model_stats + i) (output_tokens model_stats + o)
    (total_tokens model_stats + t)
    (daily_input_tokens model_stats + i) (daily_output_tokens model_stats + o)
    (daily_total_tokens model_stats + t)
    (weekly_input_tokens model_stats + i) (weekly_output_tokens model_stats + o)
    (weekly_total_tokens model_stats + t)
    (monthly_input_tokens model_stats + i) (monthly_output_tokens model_stats + o)
    (monthly_total_tokens model_stats + t).

Definition update_usage_stats (model_name : string) (result : Result)
    (now : datetime) (u : UsageData) : option UsageData :=
  match usage_metadata result with
  | None => Some u
  | Some usage =>
    (* Check for resets before updating *)
    u ← _reset_if_needed now u;
    let input_tokens := getattr0 (prompt_token_count usage) in
    let output_tokens := getattr0 (candidates_token_count usage) in
    let total_tokens := getattr0 (total_token_count usage) in
    (* Update model stats *)
    let '(model_stats, models) := defaultdict_getitem model_name (models u) in
    Some (mkUsageData
            (total_requests u + 1) (daily_requests u + 1)
            (weekly_requests u + 1) (monthly_requests u + 1)
            (last_reset_daily u) (last_reset_weekly u) (last_reset_monthly u)
            (<[model_name := add_tokens input_tokens output_tokens total_tokens
                               model_stats]> models))
  end.

(** ** The coordinator as the sensors see it

    [data] is [None] until the first refresh stores the dictionary returned
    by [_async_update_data], which is the object [usage_data] itself: a read
    through [coordinator.data] is a read of the store. *)
Record Coordinator : Type := mkCoordinator {
  usage_data : UsageData;
  data_bound : bool
}.

(** A refresh of the host's [DataUpdateCoordinator] (scheduled, or the
    first one of [async_setup_entry]). *)
Definition async_refresh (now : datetime) (c : Coordinator) : option Coordinator :=
  u ← _async_update_data now (usage_data c);
  Some (mkCoordinator u true).

(** [update_usage_stats] on the coordinator; the refresh it schedules is a
    later [async_refresh]. *)
Definition coordinator_update_usage_stats (model_name : string) (result : Result)
    (now : datetime) (c : Coordinator) : option Coordinator :=
  u ← update_usage_stats model_name result now (usage_data c);
  Some (mkCoordinator u (data_bound c)).

Inductive Sensor : Set :=
| TotalCallsSensor
| ModelTokenSensor (model_name token_type_key : string)
| PeriodicCallsSensor (period_key : string)
| PeriodicModelTokenSensor (model_name period_key token_type_key : string).

(** The [native_value] properties.  The result is the value and the
    coordinator after the read: [data["models"][name]] goes through
    [defaultdict.__getitem__]. *)
Definition native_value (sn : Sensor) (c : Coordinator) : option Z * Coordinator :=
  if data_bound c then
    let u := usage_data c in
    match sn with
    | TotalCallsSensor => (usage_get_int "total_requests" u, c)
    | PeriodicCallsSensor period_key =>
      (usage_get_int (period_key ++ "_requests") u, c)
    | ModelTokenSensor model_name token_type_key =>
      let '(model, ms) := defaultdict_getitem model_name (models u) in
      (model_get (token_type_key ++ "_tokens") model,
       mkCoordinator
         (mkUsageData (total_requests u) (daily_requests u) (weekly_requests u)
            (monthly_requests u) (last_reset_daily u) (last_reset_weekly u)
            (last_reset_monthly u) ms)
         (data_bound c))
    | PeriodicModelTokenSensor model_name period_key token_type_key =>
      let key := period_key ++ "_" ++ token_type_key ++ "_tokens" in
      let '(model, ms) := defaultdict_getitem model_name (models u) in
      (model_get key model,
       mkCoordinator
         (mkUsageData (total_requests u) (daily_requests u) (weekly_requests u)
            (monthly_requests u) (last_reset_daily u) (last_reset_weekly u)
            (last_reset_monthly u) ms)
         (data_bound c))
    end
  else (None, c).

(** The [last_reset] property of the periodic sensors. *)
Definition last_reset (period_key : string) (c : Coordinator) : option datetime :=
  if data_bound c then usage_get_datetime ("last_reset_" ++ period_key) (usage_data c)
  else None.

Definition PERIODS : list (string * string) :=
  [("Daily", "daily"); ("Weekly", "weekly"); ("Monthly", "monthly")].

Definition TOKEN_TYPES : list (string * string) :=
  [("Total", "total"); ("Input", "input"); ("Output", "output")].

(** The sensors of one model, in the order [async_setup_entry] appends them. *)
Definition model_sensors (model_name : string) : list Sensor :=
  ([ModelTokenSensor model_name "total";
    ModelTokenSensor model_name "input";
    ModelTokenSensor model_name "output"]
   ++ flat_map (fun p =>
        map (fun t => PeriodicModelTokenSensor model_name (snd p) (snd t))
            TOKEN_TYPES) PERIODS)%list.

(** [async_setup_entry]: the first refresh, then one group of sensors per
    key of [coordinator.data["models"]] at that moment (the order of the
    keys plays no role). *)
Definition async_setup_entry (now : datetime) (c : Coordinator)
  : option (list Sensor * Coordinator) :=
  c ← async_refresh now c;
  Some (([TotalCallsSensor]
         ++ map (fun p => PeriodicCallsSensor (snd p)) PERIODS
         ++ flat_map model_sensors (map fst (map_to_list (models (usage_data c)))))%list,
        c).

(** ** Sequences of reports *)
Record Call : Set := mkCall {
  call_model : string;
  call_result : Result;
  call_now : datetime
}.

Fixpoint record_all (calls : list Call) (u : UsageData) : option UsageData :=
  match calls with
  | [] => Some u
  | c :: rest =>
    u ← update_usage_stats (call_model c) (call_result c) (call_now c) u;
    record_all rest u
  end.

(** A report whose metadata carries the three counts. *)
Definition usage (i o t : Z) : Result :=
  mkResult (Some (mkUsageMetadata (Some i) (Some o) (Some t))).

(** ** Vocabulary of the statements *)

(** The day part of a [datetime] is a date of the calendar. *)
Definition valid_date (y m d : Z) : Prop :=
  1 <= m <= 12 /\ 1 <= d <= _days_in_month y m.

(** Position of an instant on the time line, in microseconds. *)
Definition stamp (d : datetime) : Z :=
  toordinal d * 86400000000
  + ((hour d * 3600 + minute d * 60 + second d) * 1000000 + microsecond d).

Definition DAY_US : Z := 86400000000.

(** A store whose three window starts are [datetime] objects and whose
    daily and weekly deadlines [last_reset + 1 day] and
    [last_reset + 7 days] do not pass [datetime.max]. *)
Definition store_ok (u : UsageData) : Prop :=
  valid_datetime (last_reset_daily u) /\
  valid_datetime (last_reset_weekly u) /\
  valid_datetime (last_reset_monthly u) /\
  toordinal (last_reset_daily u) + 1 <= _MAXORDINAL /\
  toordinal (last_reset_weekly u) + 7 <= _MAXORDINAL.

(** A clock reading at least a week before [datetime.max]. *)
Definition clock_ok (now : datetime) : Prop :=
  valid_datetime now /\ toordinal now + 7 <= _MAXORDINAL.

(** The entry [st'] of a model after a rollover check in which the daily,
    weekly and monthly resets fired according to [fd], [fw] and [fm],
    compared with the entry [st] before. *)
Definition entry_after (fd fw fm : bool) (st st' : ModelStats) : Prop :=
  input_tokens st' = input_tokens st /\
  output_tokens st' = output_tokens st /\
  total_tokens st' = total_tokens st /\
  daily_input_tokens st' = (if fd then 0 else daily_input_tokens st) /\
  daily_output_tokens st' = (if fd then 0 else daily_output_tokens st) /\
  daily_total_tokens st' = (if fd then 0 else daily_total_tokens st) /\
  weekly_input_tokens st' = (if fw then 0 else weekly_input_tokens st) /\
  weekly_output_tokens st' = (if fw then 0 else weekly_output_tokens st) /\
  weekly_total_tokens st' = (if fw then 0 else weekly_total_tokens st) /\
  monthly_input_tokens st' = (if fm then 0 else monthly_input_tokens st) /\
  monthly_output_tokens st' = (if fm then 0 else monthly_output_tokens st) /\
  monthly_total_tokens st' = (if fm then 0 else monthly_total_tokens st).

(** The store [u'] after such a check at a clock reading whose period
    starts are [sd], [sw] and [sm], compared with the store [u] before. *)
Definition store_after (fd fw fm : bool) (sd sw sm : datetime)
    (u u' : UsageData) : Prop :=
  total_requests u' = total_requests u /\
  daily_requests u' = (if fd then 0 else daily_requests u) /\
  weekly_requests u' = (if fw then 0 else weekly_requests u) /\
  monthly_requests u' = (if fm then 0 else monthly_requests u) /\
  last_reset_daily u' = (if fd then sd else last_reset_daily u) /\
  last_reset_weekly u' = (if fw then sw else last_reset_weekly u) /\
  last_reset_monthly u' = (if fm then sm else last_reset_monthly u) /\
  dom (models u') = dom (models u) /\
  forall name st, models u !! name = Some st ->
    exists st', models u' !! name = Some st' /\ entry_after fd fw fm st st'.

(** The entry [st'] of a model after a report of [i], [o] and [t] tokens,
    compared with the entry [st] the report found. *)
Definition entry_plus (i o t : Z) (st st' : ModelStats) : Prop :=
  input_tokens st' = input_tokens st + i /\
  output_tokens st' = output_tokens st + o /\
  total_tokens st' = total_tokens st + t /\
  daily_input_tokens st' = daily_input_tokens st + i /\
  daily_output_tokens st' = daily_output_tokens st + o /\
  daily_total_tokens st' = daily_total_tokens st + t /\
  weekly_input_tokens st' = weekly_input_tokens st + i /\
  weekly_output_tokens st' = weekly_output_tokens st + o /\
  weekly_total_tokens st' = weekly_total_tokens st + t /\
  monthly_input_tokens st' = monthly_input_tokens st + i /\
  monthly_output_tokens st' = monthly_output_tokens st + o /\
  monthly_total_tokens st' = monthly_total_tokens st + t.

(** The counts a report carries, a missing one read as 0, and [None] for a
    result without [usage_metadata]. *)
Definition reported (r : Result) : option (Z * Z * Z) :=
  match usage_metadata r with
  | None => None
  | Some m =>
    Some (getattr0 (prompt_token_count m), getattr0 (candidates_token_count m),
          getattr0 (total_token_count m))
  end.

(** Sums of the counts reported for [name] in a sequence of calls. *)
Fixpoint reported_sum (name : string) (calls : list Call) : Z * Z * Z :=
  match calls with
  | [] => (0, 0, 0)
  | c :: rest =>
    let '(si, so, st) := reported_sum name rest in
    match reported (call_result c) with
    | Some (i, o, t) =>
      if String.eqb (call_model c) name then (i + si, o + so, t + st)
      else (si, so, st)
    | None => (si, so, st)
    end
  end.

(** The model a sensor reads, if it reads one. *)
Definition sensor_model (sn : Sensor) : option string :=
  match sn with
  | ModelTokenSensor model_name _ => Some model_name
  | PeriodicModelTokenSensor model_name _ _ => Some model_name
  | _ => None
  end.

(** The store [u'] after the report of [i], [o] and [t] tokens for [name]
    has been added to the store [u]: every request counter is one higher,
    the window starts are kept, the entry of [name], created with zero
    counters if it was missing, has the counts added, and no other entry
    is touched. *)
Definition store_plus (name : string) (i o t : Z) (u u' : UsageData) : Prop :=
  total_requests u' = total_requests u + 1 /\
  daily_requests u' = daily_requests u + 1 /\
  weekly_requests u' = weekly_requests u + 1 /\
  monthly_requests u' = monthly_requests u + 1 /\
  last_reset_daily u' = last_reset_daily u /\
  last_reset_weekly u' = last_reset_weekly u /\
  last_reset_monthly u' = last_reset_monthly u /\
  (exists st st',
     (models u !! name = Some st \/
      (models u !! name = None /\ st = mkModelStats 0 0 0 0 0 0 0 0 0 0 0 0)) /\
     models u' !! name = Some st' /\ entry_plus i o t st st') /\
  dom (models u') = {[name]} ∪ dom (models u) /\
  forall other, other <> name -> models u' !! other = models u !! other.

(** The lifetime counters of [u'] compared with those of [u]: kept, or
    not lower. *)
Definition lifetime_kept (u u' : UsageData) : Prop :=
  total_requests u' = total_requests u /\
  forall name st, models u !! name = Some st ->
    exists st', models u' !! name = Some st' /\
      input_tokens st' = input_tokens st /\
      output_tokens st' = output_tokens st /\
      total_tokens st' = total_tokens st.

Definition lifetime_grows (u u' : UsageData) : Prop :=
  total_requests u <= total_requests u' /\
  forall name st, models u !! name = Some st ->
    exists st', models u' !! name = Some st' /\
      input_tokens st <= input_tokens st' /\
      output_tokens st <= output_tokens st' /\
      total_tokens st <= total_tokens st'.

(** The lifetime counts of [name] in a store, zero when it has no entry. *)
Definition lifetime_of (name : string) (u : UsageData) : Z * Z * Z :=
  match models u !! name with
  | Some st => (input_tokens st, output_tokens st, total_tokens st)
  | None => (0, 0, 0)
  end.

Definition triple_add (a b : Z * Z * Z) : Z * Z * Z :=
  let '(a1, a2, a3) := a in
  let '(b1, b2, b3) := b in
  (a1 + b1, a2 + b2, a3 + b3).

(** ** Sample data: the store of Scenarios A and B *)

(** The instant of the store's creation, a Monday. *)
Definition scenario_created : datetime := mkdatetime 2024 1 15 10 0 0 0.
Definition scenario_a_now : datetime := mkdatetime 2024 1 15 10 5 0 0.
Definition scenario_b_now : datetime := mkdatetime 2024 1 16 10 0 0 0.

(** The store after the two reports of Scenarios A and B. *)
Definition scenario_b_store : UsageData :=
  mkUsageData 2 1 2 2
    (mkdatetime 2024 1 16 0 0 0 0) (mkdatetime 2024 1 15 0 0 0 0)
    (mkdatetime 2024 1 1 0 0 0 0)
    {["model-x" := mkModelStats 11 6 17 1 1 2 11 6 17 11 6 17]}.

(** The two reports of Scenarios A and B. *)
Definition scenario_calls : list Call :=
  [mkCall "model-x" (usage 10 5 15) scenario_a_now;
   mkCall "model-x" (usage 1 1 2) scenario_b_now].

(** ** Interleavings of reports and scheduled refreshes *)

(** What the host's event loop runs on the store: a call of
    [update_usage_stats], or a scheduled refresh ([_async_update_data]). *)
Inductive Event : Set :=
| Report (model_name : string) (result : Result) (now : datetime)
| Poll (now : datetime).

Definition run_event (e : Event) (u : UsageData) : option UsageData :=
  match e with
  | Report model_name result now => update_usage_stats model_name result now u
  | Poll now => _async_update_data now u
  end.

Fixpoint run_events (events : list Event) (u : UsageData) : option UsageData :=
  match events with
  | [] => Some u
  | e :: rest => u ← run_event e u; run_events rest u
  end.

(** The counts of every report of a sequence are non-negative, and add up
    ([total = input + output]). *)
Definition event_nonneg (e : Event) : Prop :=
  match e with
  | Report _ result _ =>
    forall i o t, reported result = Some (i, o, t) -> 0 <= i /\ 0 <= o /\ 0 <= t
  | Poll _ => True
  end.

Definition event_consistent (e : Event) : Prop :=
  match e with
  | Report _ result _ =>
    forall i o t, reported result = Some (i, o, t) -> t = i + o
  | Poll _ => True
  end.

(** A periodic counter lies between 0 and its lifetime counter. *)
Definition entry_bounded (st : ModelStats) : Prop :=
  0 <= daily_input_tokens st <= input_tokens st /\
  0 <= daily_output_tokens st <= output_tokens st /\
  0 <= daily_total_tokens st <= total_tokens st /\
  0 <= weekly_input_tokens st <= input_tokens st /\
  0 <= weekly_output_tokens st <= output_tokens st /\
  0 <= weekly_total_tokens st <= total_tokens st /\
  0 <= monthly_input_tokens st <= input_tokens st /\
  0 <= monthly_output_tokens st <= output_tokens st /\
  0 <= monthly_total_tokens st <= total_tokens st.

Definition counters_bounded (u : UsageData) : Prop :=
  0 <= daily_requests u <= total_requests u /\
  0 <= weekly_requests u <= total_requests u /\
  0 <= monthly_requests u <= total_requests u /\
  forall name st, models u !! name = Some st -> entry_bounded st.

(** In every scope of an entry the total is the sum of input and output. *)
Definition entry_consistent (st : ModelStats) : Prop :=
  total_tokens st = input_tokens st + output_tokens st /\
  daily_total_tokens st = daily_input_tokens st + daily_output_tokens st /\
  weekly_total_tokens st = weekly_input_tokens st + weekly_output_tokens st /\
  monthly_total_tokens st = monthly_input_tokens st + monthly_output_tokens st.

Definition tokens_consistent (u : UsageData) : Prop :=
  forall name st, models u !! name = Some st -> entry_consistent st.

(** None of the three conditions of the rollover check holds at [now]. *)
Definition no_reset_due (now : datetime) (u : UsageData) : Prop :=
  exists due_daily due_weekly,
    datetime_add (last_reset_daily u) (timedelta_days 1) = Some due_daily /\
    datetime_add (last_reset_weekly u) (timedelta_weeks 1) = Some due_weekly /\
    datetime_ge now due_daily = false /\
    datetime_ge now due_weekly = false /\
    month now = month (last_reset_monthly u).

(** The entry of [name], or the factory's value when it has none. *)
Definition entry_of (name : string) (u : UsageData) : ModelStats :=
  default default_model_stats (models u !! name).

(** ** Sensor identifiers: [_attr_unique_id] of the four sensor classes *)
Definition unique_id (entry_id : string) (sn : Sensor) : string :=
  match sn with
  | TotalCallsSensor => entry_id ++ "_total_calls"
  | ModelTokenSensor model_name token_type_key =>
    entry_id ++ "_" ++ model_name ++ "_" ++ token_type_key ++ "_tokens"
  | PeriodicCallsSensor period_key => entry_id ++ "_" ++ period_key ++ "_calls"
  | PeriodicModelTokenSensor model_name period_key token_type_key =>
    entry_id ++ "_" ++ model_name ++ "_" ++ period_key ++ "_" ++ token_type_key
    ++ "_tokens"
  end.

(** Scenarios A and B with a scheduled refresh between the two reports. *)
Definition scenario_events : list Event :=
  [Report "model-x" (usage 10 5 15) scenario_a_now;
   Poll scenario_b_now;
   Report "model-x" (usage 1 1 2) scenario_b_now].




(** * Properties *)

(** ** The calendar *)

Lemma is_leap_cases y :
  (_is_leap y = true /\ y mod 4 = 0 /\ (y mod 100 <> 0 \/ y mod 400 = 0)) \/
  (_is_leap y = false /\ (y mod 4 <> 0 \/ (y mod 100 = 0 /\ y mod 400 <> 0))).
Proof.
  unfold _is_leap.
  destruct (Z.eqb_spec (y mod 4) 0), (Z.eqb_spec (y mod 100) 0),
    (Z.eqb_spec (y mod 400) 0); simpl; lia.
Qed.

Lemma days_before_year_succ y :
  _days_before_year (y + 1) = _days_before_year y + 365 + (if _is_leap y then 1 else 0).
Proof.
  unfold _days_before_year.
  destruct (is_leap_cases y) as [(-> & H4 & H)|(-> & H)];
    replace (y + 1 - 1) with y by lia.
  all: Z.div_mod_to_equations; lia.
Qed.

Lemma days_before_year_mono y k :
  0 <= k -> _days_before_year y + 365 * k <= _days_before_year (y + k).
Proof.
  intros Hk. pattern k. apply natlike_ind; [| |exact Hk].
  - replace (y + 0) with y by lia. lia.
  - intros x Hx IH. replace (y + Z.succ x) with (y + x + 1) by lia.
    rewrite days_before_year_succ. destruct (_is_leap (y + x)); lia.
Qed.

Lemma month_cases m :
  1 <= m <= 12 ->
  m = 1 \/ m = 2 \/ m = 3 \/ m = 4 \/ m = 5 \/ m = 6 \/
  m = 7 \/ m = 8 \/ m = 9 \/ m = 10 \/ m = 11 \/ m = 12.
Proof. lia. Qed.

Ltac split_month H :=
  apply month_cases in H;
  destruct H as [H|[H|[H|[H|[H|[H|[H|[H|[H|[H|[H|H]]]]]]]]]]]; subst.

Lemma day_of_year_bounds y m d :
  valid_date y m d ->
  1 <= _days_before_month y m + d <= 365 + (if _is_leap y then 1 else 0).
Proof.
  intros [Hm Hd]. unfold _days_before_month, _days_in_month in *.
  split_month Hm; destruct (_is_leap y); simpl in *; lia.
Qed.

Lemma day_of_year_lt y m1 d1 m2 d2 :
  valid_date y m1 d1 -> valid_date y m2 d2 -> m1 < m2 ->
  _days_before_month y m1 + d1 < _days_before_month y m2 + d2.
Proof.
  intros [Hm1 Hd1] [Hm2 Hd2] Hlt. unfold _days_before_month, _days_in_month in *.
  split_month Hm1; split_month Hm2; try lia; destruct (_is_leap y); simpl in *; lia.
Qed.

Lemma ymd2ord_year_lt y1 m1 d1 y2 m2 d2 :
  valid_date y1 m1 d1 -> valid_date y2 m2 d2 -> y1 < y2 ->
  _ymd2ord y1 m1 d1 < _ymd2ord y2 m2 d2.
Proof.
  intros H1 H2 Hlt. unfold _ymd2ord.
  pose proof (day_of_year_bounds _ _ _ H1).
  pose proof (day_of_year_bounds _ _ _ H2).
  pose proof (days_before_year_succ y1).
  pose proof (days_before_year_mono (y1 + 1) (y2 - (y1 + 1)) ltac:(lia)) as Hm.
  replace (y1 + 1 + (y2 - (y1 + 1))) with y2 in Hm by lia.
  lia.
Qed.

Lemma valid_datetime_date d :
  valid_datetime d -> valid_date (year d) (month d) (day d).
Proof. unfold valid_datetime, valid_date. tauto. Qed.

Lemma datetime_ge_stamp a b :
  valid_datetime a -> valid_datetime b ->
  datetime_ge a b = true <-> stamp b <= stamp a.
Proof.
  intros Ha Hb.
  pose proof (valid_datetime_date _ Ha) as Da.
  pose proof (valid_datetime_date _ Hb) as Db.
  destruct Ha as (_ & _ & _ & Hha & Hma & Hsa & Hua).
  destruct Hb as (_ & _ & _ & Hhb & Hmb & Hsb & Hub).
  unfold datetime_ge, datetime_cmp, stamp, toordinal.
  destruct a as [ya ma da ha mia sa ua], b as [yb mb db hb mib sb ub]; simpl in *.
  destruct (Z.compare_spec ya yb) as [->|Hy|Hy].
  2:{ pose proof (ymd2ord_year_lt _ _ _ _ _ _ Da Db Hy). split; [discriminate|lia]. }
  2:{ pose proof (ymd2ord_year_lt _ _ _ _ _ _ Db Da Hy). split; [lia|reflexivity]. }
  unfold _ymd2ord.
  destruct (Z.compare_spec ma mb) as [->|Hm|Hm].
  2:{ pose proof (day_of_year_lt _ _ _ _ _ Da Db Hm). split; [discriminate|lia]. }
  2:{ pose proof (day_of_year_lt _ _ _ _ _ Db Da Hm). split; [lia|reflexivity]. }
  destruct (Z.compare_spec da db) as [->|Hd|Hd]; [|split; [discriminate|lia]|split; [lia|reflexivity]].
  destruct (Z.compare_spec ha hb) as [->|Hh|Hh]; [|split; [discriminate|lia]|split; [lia|reflexivity]].
  destruct (Z.compare_spec mia mib) as [->|Hi|Hi]; [|split; [discriminate|lia]|split; [lia|reflexivity]].
  destruct (Z.compare_spec sa sb) as [->|Hs|Hs]; [|split; [discriminate|lia]|split; [lia|reflexivity]].
  destruct (Z.compare_spec ua ub) as [->|Hu|Hu]; split; try discriminate; try reflexivity; lia.
Qed.

Lemma days_before_year_decomp a b c e :
  0 <= b <= 3 -> 0 <= c <= 24 -> 0 <= e <= 3 ->
  _days_before_year (400 * a + 100 * b + 4 * c + e + 1)
  = 146097 * a + 36524 * b + 1461 * c + 365 * e.
Proof.
  intros Hb Hc He. unfold _days_before_year. cbv zeta.
  replace (400 * a + 100 * b + 4 * c + e + 1 - 1) with (400 * a + 100 * b + 4 * c + e) by lia.
  Z.div_mod_to_equations; lia.
Qed.

Lemma is_leap_decomp a b c e :
  0 <= b <= 3 -> 0 <= c <= 24 -> 0 <= e <= 3 ->
  _is_leap (400 * a + 100 * b + 4 * c + e + 1)
  = (e =? 3) && (negb (c =? 24) || (b =? 3)).
Proof.
  intros Hb Hc He.
  destruct (is_leap_cases (400 * a + 100 * b + 4 * c + e + 1)) as [(-> & H)|(-> & H)];
    destruct (Z.eqb_spec e 3), (Z.eqb_spec c 24), (Z.eqb_spec b 3); simpl; try reflexivity;
    exfalso.
  all: Z.div_mod_to_equations; lia.
Qed.

Lemma month_search (leapyear : bool) n :
  0 <= n < 365 + (if leapyear then 1 else 0) ->
  let month := Z.shiftr (n + 50) 5 in
  let preceding :=
    _DAYS_BEFORE_MONTH month + (if (2 <? month) && leapyear then 1 else 0) in
  let r :=
    if n <? preceding then
      (month - 1,
       n - (preceding - (_DAYS_IN_MONTH (month - 1)
                         + (if (month - 1 =? 2) && leapyear then 1 else 0))) + 1)
    else (month, n - preceding + 1) in
  1 <= fst r <= 12 /\
  1 <= snd r <= _DAYS_IN_MONTH (fst r) + (if (fst r =? 2) && leapyear then 1 else 0) /\
  _DAYS_BEFORE_MONTH (fst r) + (if (2 <? fst r) && leapyear then 1 else 0) + snd r = n + 1.
Proof.
  intros Hn. cbv zeta. rewrite Z.shiftr_div_pow2 by lia. change (2 ^ 5) with 32.
  assert (Hq : 1 <= (n + 50) / 32 <= 12)
    by (destruct leapyear; Z.div_mod_to_equations; lia).
  assert (Hr : 32 * ((n + 50) / 32) <= n + 50 < 32 * ((n + 50) / 32) + 32)
    by (Z.div_mod_to_equations; lia).
  generalize dependent ((n + 50) / 32). intros q Hq Hr.
  split_month Hq; destruct leapyear;
    repeat match goal with
    | |- context [Z.pos ?p - 1] =>
      let v := eval compute in (Z.pos p - 1) in change (Z.pos p - 1) with v
    end;
    cbn -[Z.add Z.sub Z.ltb Z.le Z.lt];
    match goal with |- context [?a <? ?b] => destruct (Z.ltb_spec a b) end;
    cbn -[Z.add Z.sub Z.le Z.lt] in *; lia.
Qed.

Lemma ord2ymd_spec n y m d :
  1 <= n -> _ord2ymd n = (y, m, d) ->
  valid_date y m d /\ _ymd2ord y m d = n.
Proof.
  intros Hn. unfold _ord2ymd. cbv zeta. unfold _DI400Y, _DI100Y, _DI4Y.
  pose proof (Z.div_mod (n - 1) 146097 ltac:(lia)) as E1.
  pose proof (Z.mod_pos_bound (n - 1) 146097 ltac:(lia)) as B1.
  set (a := (n - 1) / 146097) in *. set (r1 := (n - 1) mod 146097) in *.
  pose proof (Z.div_mod r1 36524 ltac:(lia)) as E2.
  pose proof (Z.mod_pos_bound r1 36524 ltac:(lia)) as B2.
  set (b := r1 / 36524) in *. set (r2 := r1 mod 36524) in *.
  pose proof (Z.div_mod r2 1461 ltac:(lia)) as E3.
  pose proof (Z.mod_pos_bound r2 1461 ltac:(lia)) as B3.
  set (c := r2 / 1461) in *. set (r3 := r2 mod 1461) in *.
  pose proof (Z.div_mod r3 365 ltac:(lia)) as E4.
  pose proof (Z.mod_pos_bound r3 365 ltac:(lia)) as B4.
  set (e := r3 / 365) in *. set (r4 := r3 mod 365) in *.
  clearbody a r1 b r2 c r3 e r4.
  assert (Hb : 0 <= b <= 4) by lia.
  assert (Hc : 0 <= c <= 24) by lia.
  assert (He : 0 <= e <= 4) by lia.
  destruct (Z.eqb_spec e 4) as [He4|He4]; [|destruct (Z.eqb_spec b 4) as [Hb4|Hb4]];
    cbn [orb].
  - intros [= <- <- <-]. subst e.
    assert (r4 = 0) by lia. assert (c <= 23) by lia. assert (b <= 3) by lia.
    replace (a * 400 + 1 + (b * 100 + c * 4 + 4) - 1)
      with (400 * a + 100 * b + 4 * (c + 1) + 0) by lia.
    assert (Hy : _days_before_year (400 * a + 100 * b + 4 * c + 3 + 1)
                 = 146097 * a + 36524 * b + 1461 * c + 365 * 3)
      by (apply days_before_year_decomp; lia).
    assert (Hl : _is_leap (400 * a + 100 * b + 4 * c + 3 + 1) = true).
    { rewrite is_leap_decomp by lia. destruct (Z.eqb_spec c 24); [lia|reflexivity]. }
    replace (400 * a + 100 * b + 4 * c + 3 + 1)
      with (400 * a + 100 * b + 4 * (c + 1) + 0) in Hy, Hl by lia.
    unfold valid_date, _ymd2ord, _days_in_month, _days_before_month.
    rewrite Hy, Hl. cbn. lia.
  - intros [= <- <- <-]. subst b.
    assert (r2 = 0) by lia. assert (c = 0) by lia. assert (r3 = 0) by lia.
    assert (e = 0) by lia. assert (r4 = 0) by lia. subst.
    replace (a * 400 + 1 + (4 * 100 + 0 * 4 + 0) - 1)
      with (400 * a + 100 * 3 + 4 * 24 + 3 + 1) by lia.
    unfold valid_date, _ymd2ord, _days_in_month, _days_before_month.
    rewrite days_before_year_decomp, is_leap_decomp by lia. cbn. lia.
  - cbn [orb].
    assert (Hb3 : 0 <= b <= 3) by lia. assert (He3 : 0 <= e <= 3) by lia.
    set (leapyear := (e =? 3) && (negb (c =? 24) || (b =? 3))).
    assert (Hr4 : 0 <= r4 < 365 + (if leapyear then 1 else 0)).
    { subst leapyear. destruct (Z.eqb_spec e 3), (Z.eqb_spec c 24), (Z.eqb_spec b 3);
        cbn; lia. }
    pose proof (month_search leapyear r4 Hr4) as Hs. cbv zeta in Hs.
    replace (a * 400 + 1 + (b * 100 + c * 4 + e))
      with (400 * a + 100 * b + 4 * c + e + 1) by lia.
    pose proof (days_before_year_decomp a b c e Hb3 Hc He3) as Hy.
    pose proof (is_leap_decomp a b c e Hb3 Hc He3) as Hl. fold leapyear in Hl.
    unfold valid_date, _ymd2ord, _days_in_month, _days_before_month.
    match type of Hs with context [if ?t then _ else _] =>
      match t with (_ <? _) => destruct t end end;
      cbn [fst snd] in Hs; intros [= <- <- <-]; rewrite Hy, Hl;
      destruct Hs as (Hs1 & Hs2 & Hs3); (split; [split; [exact Hs1|]|]).
    all: try lia.
    all: match goal with |- context [if ?t then 29 else _] => destruct t eqn:Ht end;
      rewrite ?Ht in Hs2; try lia.
    all: apply andb_prop in Ht; destruct Ht as [Ht _]; apply Z.eqb_eq in Ht;
      rewrite Ht in *; cbn in *; lia.
Qed.

Lemma timedelta_new_normal d s us :
  0 <= s < 86400 -> 0 <= us < 1000000 ->
  timedelta_new d s us = mktimedelta d s us.
Proof.
  intros Hs Hus. unfold timedelta_new. cbv zeta.
  rewrite (Z.div_small us), (Z.mod_small us) by lia.
  rewrite Z.add_0_r, (Z.div_small s), (Z.mod_small s) by lia.
  f_equal. lia.
Qed.

Lemma timedelta_days_eq k : timedelta_days k = mktimedelta k 0 0.
Proof. unfold timedelta_days. apply timedelta_new_normal; lia. Qed.

Lemma timedelta_weeks_eq k : timedelta_weeks k = mktimedelta (7 * k) 0 0.
Proof. unfold timedelta_weeks. apply timedelta_new_normal; lia. Qed.

Lemma timedelta_neg_days k : timedelta_neg (timedelta_days k) = mktimedelta (- k) 0 0.
Proof.
  rewrite timedelta_days_eq. unfold timedelta_neg. cbn [days seconds microseconds].
  apply timedelta_new_normal; lia.
Qed.

Lemma time_of_day_split h mi s :
  0 <= h < 24 -> 0 <= mi < 60 -> 0 <= s < 60 ->
  (h * 3600 + mi * 60 + s) / 3600 = h /\
  ((h * 3600 + mi * 60 + s) mod 3600) / 60 = mi /\
  ((h * 3600 + mi * 60 + s) mod 3600) mod 60 = s.
Proof. intros. Z.div_mod_to_equations. lia. Qed.

Lemma ymd2ord_year_bounds y m d :
  valid_date y m d -> 0 < _ymd2ord y m d <= _MAXORDINAL -> MINYEAR <= y <= MAXYEAR.
Proof.
  intros Hv Hn. unfold MINYEAR, MAXYEAR, _MAXORDINAL in *.
  pose proof (day_of_year_bounds _ _ _ Hv) as Hd.
  pose proof (days_before_year_succ y) as Hs.
  unfold _ymd2ord in Hn.
  destruct (Z_lt_le_dec y 1) as [Hlo|Hlo].
  { pose proof (days_before_year_mono (y + 1) (1 - (y + 1)) ltac:(lia)) as Hm.
    replace (y + 1 + (1 - (y + 1))) with 1 in Hm by lia.
    change (_days_before_year 1) with 0 in Hm. lia. }
  destruct (Z_lt_le_dec 9999 y) as [Hhi|Hhi]; [|lia].
  pose proof (days_before_year_mono 10000 (y - 10000) ltac:(lia)) as Hm.
  replace (10000 + (y - 10000)) with y in Hm by lia.
  change (_days_before_year 10000) with 3652059 in Hm. lia.
Qed.

(** A [datetime] plus whole days: the day moves, the time of day stays. *)
Lemma datetime_add_whole_days d k :
  valid_datetime d ->
  0 < toordinal d + k <= _MAXORDINAL ->
  exists r, datetime_add d (mktimedelta k 0 0) = Some r /\
    valid_datetime r /\ toordinal r = toordinal d + k /\
    hour r = hour d /\ minute r = minute d /\ second r = second d /\
    microsecond r = microsecond d.
Proof.
  intros Hv Hn.
  destruct Hv as (Hy & Hm & Hd & Hh & Hmi & Hs & Hus).
  unfold datetime_add. cbv zeta.
  rewrite (timedelta_new_normal (toordinal d)) by lia.
  unfold timedelta_add. cbn [days seconds microseconds].
  rewrite !Z.add_0_r. rewrite timedelta_new_normal by lia.
  cbn [days seconds microseconds].
  destruct (Z.ltb_spec 0 (toordinal d + k)); [|lia].
  destruct (Z.leb_spec (toordinal d + k) _MAXORDINAL); [|lia].
  cbn [andb].
  destruct (_ord2ymd (toordinal d + k)) as [[y m] dd] eqn:E.
  apply ord2ymd_spec in E; [|lia]. destruct E as [Hvd Ho].
  pose proof (time_of_day_split _ _ _ Hh Hmi Hs) as (E1 & E2 & E3).
  eexists. split; [reflexivity|].
  unfold valid_datetime, toordinal. cbn [year month day hour minute second microsecond].
  rewrite E1, E2, E3, Ho.
  pose proof (ymd2ord_year_bounds y m dd Hvd ltac:(lia)).
  unfold valid_date in Hvd. repeat split; try lia.
Qed.

Lemma datetime_add_overflow d k :
  valid_datetime d ->
  ~ (0 < toordinal d + k <= _MAXORDINAL) ->
  datetime_add d (mktimedelta k 0 0) = None.
Proof.
  intros Hv Hn.
  destruct Hv as (Hy & Hm & Hd & Hh & Hmi & Hs & Hus).
  unfold datetime_add. cbv zeta.
  rewrite (timedelta_new_normal (toordinal d)) by lia.
  unfold timedelta_add. cbn [days seconds microseconds].
  rewrite !Z.add_0_r. rewrite timedelta_new_normal by lia.
  cbn [days seconds microseconds].
  destruct (Z.ltb_spec 0 (toordinal d + k)), (Z.leb_spec (toordinal d + k) _MAXORDINAL);
    cbn [andb]; try reflexivity. lia.
Qed.

Lemma toordinal_bounds d :
  valid_datetime d -> 1 <= toordinal d <= _MAXORDINAL.
Proof.
  intros Hv. pose proof (valid_datetime_date _ Hv) as Hd.
  destruct Hv as (Hy & _). unfold MINYEAR, MAXYEAR in Hy.
  pose proof (day_of_year_bounds _ _ _ Hd) as Hb.
  pose proof (days_before_year_succ (year d)) as Hs.
  pose proof (days_before_year_mono 1 (year d - 1) ltac:(lia)) as H1.
  replace (1 + (year d - 1)) with (year d) in H1 by lia.
  change (_days_before_year 1) with 0 in H1.
  pose proof (days_before_year_mono (year d + 1) (10000 - (year d + 1)) ltac:(lia)) as H2.
  replace (year d + 1 + (10000 - (year d + 1))) with 10000 in H2 by lia.
  change (_days_before_year 10000) with 3652059 in H2.
  unfold toordinal, _ymd2ord, _MAXORDINAL. lia.
Qed.

(** ** Period starts and deadlines *)

Lemma stamp_whole_days a b k :
  toordinal b = toordinal a + k -> hour b = hour a -> minute b = minute a ->
  second b = second a -> microsecond b = microsecond a ->
  stamp b = stamp a + k * DAY_US.
Proof. unfold stamp, DAY_US. intros -> -> -> -> ->. lia. Qed.

Lemma valid_replace_time0 now : valid_datetime now -> valid_datetime (replace_time0 now).
Proof. unfold valid_datetime, replace_time0. cbn. lia. Qed.

Lemma valid_replace_day1_time0 now :
  valid_datetime now -> valid_datetime (replace_day1_time0 now).
Proof.
  unfold valid_datetime, replace_day1_time0. cbn. intros (Hy & Hm & Hd & _).
  repeat split; lia.
Qed.

Lemma weekday_bounds d : 0 <= weekday d <= 6.
Proof. unfold weekday. Z.div_mod_to_equations. lia. Qed.

Lemma weekday_replace_time0 now : weekday (replace_time0 now) = weekday now.
Proof. reflexivity. Qed.

Lemma get_period_start_weekly now :
  valid_datetime now ->
  exists w, get_period_start "weekly" now = Some w /\
    datetime_sub (replace_time0 now) (timedelta_days (weekday now)) = Some w /\
    valid_datetime w /\ toordinal w = toordinal now - weekday now /\
    weekday w = 0 /\
    hour w = 0 /\ minute w = 0 /\ second w = 0 /\ microsecond w = 0.
Proof.
  intros Hv. unfold get_period_start. cbn [String.eqb Ascii.eqb Bool.eqb].
  cbv zeta. rewrite weekday_replace_time0.
  unfold datetime_sub. rewrite timedelta_neg_days.
  pose proof (toordinal_bounds _ Hv) as Ho.
  pose proof (weekday_bounds now) as Hw.
  assert (Hpos : 0 < toordinal now - weekday now).
  { unfold weekday in *. Z.div_mod_to_equations. lia. }
  destruct (datetime_add_whole_days (replace_time0 now) (- weekday now)
              (valid_replace_time0 _ Hv)) as (w & E & Hvw & Hto & Hh & Hmi & Hs & Hus).
  { change (toordinal (replace_time0 now)) with (toordinal now). lia. }
  change (toordinal (replace_time0 now)) with (toordinal now) in Hto.
  exists w. split; [exact E|]. split; [exact E|]. split; [exact Hvw|].
  split; [exact Hto|]. split; [|cbn in *; lia].
  unfold weekday in *. rewrite Hto. Z.div_mod_to_equations. lia.
Qed.

Lemma month_after_40_days a b :
  valid_datetime a -> valid_datetime b ->
  toordinal b = toordinal a + 40 -> month b <> month a.
Proof.
  intros Ha Hb Ho Hm.
  pose proof (valid_datetime_date _ Ha) as Da.
  pose proof (valid_datetime_date _ Hb) as Db.
  unfold toordinal in Ho. clear Ha Hb.
  destruct a as [ya ma da ? ? ? ?], b as [yb mb db ? ? ? ?].
  cbn [year month day] in *. subst mb.
  destruct Da as [Hma Hda], Db as [_ Hdb].
  unfold _ymd2ord, _days_before_month, _days_in_month in *.
  destruct (Z.lt_trichotomy ya yb) as [Hy|[Hy|Hy]].
  - pose proof (days_before_year_succ ya) as Hs.
    pose proof (days_before_year_mono (ya + 1) (yb - (ya + 1)) ltac:(lia)) as Hmo.
    replace (ya + 1 + (yb - (ya + 1))) with yb in Hmo by lia.
    generalize dependent (_days_before_year ya).
    generalize dependent (_days_before_year yb).
    generalize dependent (_days_before_year (ya + 1)). intros.
    split_month Hma; destruct (_is_leap ya), (_is_leap yb); cbn in *; lia.
  - subst yb. generalize dependent (_days_before_year ya). intros.
    split_month Hma; destruct (_is_leap ya); cbn in *; lia.
  - pose proof (days_before_year_succ yb) as Hs.
    pose proof (days_before_year_mono (yb + 1) (ya - (yb + 1)) ltac:(lia)) as Hmo.
    replace (yb + 1 + (ya - (yb + 1))) with ya in Hmo by lia.
    generalize dependent (_days_before_year ya).
    generalize dependent (_days_before_year yb).
    generalize dependent (_days_before_year (yb + 1)). intros.
    split_month Hma; destruct (_is_leap ya), (_is_leap yb); cbn in *; lia.
Qed.

(** ** The rollover check *)

Lemma datetime_add_days d k :
  valid_datetime d -> 0 < toordinal d + k <= _MAXORDINAL ->
  exists r, datetime_add d (timedelta_days k) = Some r /\
    valid_datetime r /\ toordinal r = toordinal d + k /\
    stamp r = stamp d + k * DAY_US.
Proof.
  intros Hv Hk. rewrite timedelta_days_eq.
  destruct (datetime_add_whole_days d k Hv Hk) as (r & E & Hr & Ho & Hh & Hmi & Hs & Hus).
  exists r. repeat split; try assumption; try apply Hr.
  apply stamp_whole_days; assumption.
Qed.

Lemma datetime_add_weeks d k :
  valid_datetime d -> 0 < toordinal d + 7 * k <= _MAXORDINAL ->
  exists r, datetime_add d (timedelta_weeks k) = Some r /\
    valid_datetime r /\ toordinal r = toordinal d + 7 * k /\
    stamp r = stamp d + 7 * k * DAY_US.
Proof.
  intros Hv Hk. rewrite timedelta_weeks_eq.
  destruct (datetime_add_whole_days d (7 * k) Hv Hk) as (r & E & Hr & Ho & Hh & Hmi & Hs & Hus).
  exists r. repeat split; try assumption; try apply Hr.
  apply stamp_whole_days; assumption.
Qed.

Lemma reset_if_needed_spec now u :
  valid_datetime now -> store_ok u ->
  exists due_daily due_weekly start_weekly u',
    datetime_add (last_reset_daily u) (timedelta_days 1) = Some due_daily /\
    datetime_add (last_reset_weekly u) (timedelta_weeks 1) = Some due_weekly /\
    valid_datetime due_daily /\ valid_datetime due_weekly /\
    stamp due_daily = stamp (last_reset_daily u) + DAY_US /\
    stamp due_weekly = stamp (last_reset_weekly u) + 7 * DAY_US /\
    get_period_start "weekly" now = Some start_weekly /\
    _reset_if_needed now u = Some u' /\
    store_after (datetime_ge now due_daily) (datetime_ge now due_weekly)
      (negb (month now =? month (last_reset_monthly u)))
      (replace_time0 now) start_weekly (replace_day1_time0 now) u u'.
Proof.
  intros Hnow (Hd & Hw & Hm & Hrd & Hrw).
  pose proof (toordinal_bounds _ Hd) as Bd.
  pose proof (toordinal_bounds _ Hw) as Bw.
  destruct (datetime_add_days (last_reset_daily u) 1 Hd ltac:(lia))
    as (dd & Edd & Vdd & _ & Sdd).
  destruct (datetime_add_weeks (last_reset_weekly u) 1 Hw ltac:(lia))
    as (dw & Edw & Vdw & _ & Sdw).
  destruct (get_period_start_weekly now Hnow) as (sw & Esw & _).
  assert (exists u', _reset_if_needed now u = Some u' /\
    store_after (datetime_ge now dd) (datetime_ge now dw)
      (negb (month now =? month (last_reset_monthly u)))
      (replace_time0 now) sw (replace_day1_time0 now) u u') as (u' & Eu & Hu).
  { unfold _reset_if_needed.
    change (get_period_start "daily" now) with (Some (replace_time0 now)).
    change (get_period_start "monthly" now) with (Some (replace_day1_time0 now)).
    rewrite Edd. cbn [mbind option_bind].
    destruct (datetime_ge now dd); cbn [mbind option_bind last_reset_weekly];
      rewrite Edw; cbn [mbind option_bind];
      destruct (datetime_ge now dw); rewrite ?Esw;
      cbn [mbind option_bind last_reset_monthly];
      destruct (negb (month now =? month (last_reset_monthly u)));
      cbn [mbind option_bind];
      eexists; (split; [reflexivity|]).
    all: unfold store_after; cbn [total_requests daily_requests weekly_requests
           monthly_requests last_reset_daily last_reset_weekly last_reset_monthly models].
    all: repeat (split; [rewrite ?(dom_fmap_L (D:=gset string)); reflexivity|]).
    all: intros name st Hst; rewrite ?lookup_fmap, Hst; cbn [fmap option_fmap option_map];
      eexists; (split; [reflexivity|]); repeat split. }
  exists dd, dw, sw, u'. repeat split; try assumption; try apply Vdd; try apply Vdw; try lia;
    apply Hu.
Qed.

Lemma time_of_day_bounds d :
  valid_datetime d ->
  0 <= (hour d * 3600 + minute d * 60 + second d) * 1000000 + microsecond d < DAY_US.
Proof. unfold valid_datetime, DAY_US. lia. Qed.

Lemma stamp_le_toordinal a b :
  valid_datetime a -> valid_datetime b -> stamp a <= stamp b ->
  toordinal a <= toordinal b.
Proof.
  intros Ha Hb. pose proof (time_of_day_bounds _ Ha). pose proof (time_of_day_bounds _ Hb).
  unfold stamp, DAY_US in *. lia.
Qed.

Lemma datetime_ge_false_stamp a b :
  valid_datetime a -> valid_datetime b ->
  datetime_ge a b = false <-> stamp a < stamp b.
Proof.
  intros Ha Hb. pose proof (datetime_ge_stamp a b Ha Hb) as H.
  destruct (datetime_ge a b); split; intros; try discriminate; try reflexivity.
  - assert (stamp b <= stamp a) by (apply H; reflexivity). lia.
  - destruct (Z_lt_le_dec (stamp a) (stamp b)) as [Hlt|Hle]; [exact Hlt|].
    apply H in Hle. discriminate.
Qed.

Lemma datetime_add_days_inv d k r :
  valid_datetime d -> datetime_add d (timedelta_days k) = Some r ->
  valid_datetime r /\ toordinal r = toordinal d + k /\
  stamp r = stamp d + k * DAY_US /\ 0 < toordinal d + k <= _MAXORDINAL.
Proof.
  intros Hv E.
  destruct (Z_lt_le_dec 0 (toordinal d + k)) as [Hlo|Hlo];
    [destruct (Z_le_gt_dec (toordinal d + k) _MAXORDINAL) as [Hhi|Hhi]|].
  - destruct (datetime_add_days d k Hv ltac:(lia)) as (r' & E' & Hr).
    rewrite E in E'. injection E' as <-. repeat split; try apply Hr; lia.
  - rewrite timedelta_days_eq, datetime_add_overflow in E by (assumption || lia).
    discriminate.
  - rewrite timedelta_days_eq, datetime_add_overflow in E by (assumption || lia).
    discriminate.
Qed.

Lemma stamp_replace_time0 now :
  valid_datetime now ->
  stamp (replace_time0 now) <= stamp now < stamp (replace_time0 now) + DAY_US.
Proof.
  intros Hv. pose proof (time_of_day_bounds _ Hv) as H.
  unfold stamp, replace_time0, toordinal, DAY_US in *. cbn. lia.
Qed.

Lemma stamp_week_start now w :
  valid_datetime now -> get_period_start "weekly" now = Some w ->
  valid_datetime w /\ toordinal w = toordinal now - weekday now /\
  stamp w <= stamp now < stamp w + 7 * DAY_US.
Proof.
  intros Hv E.
  destruct (get_period_start_weekly now Hv) as (w' & E' & _ & Hw & Ho & _ & Hh & Hmi & Hs & Hus).
  rewrite E in E'. injection E' as <-.
  pose proof (weekday_bounds now) as Hwd.
  pose proof (time_of_day_bounds _ Hv) as H.
  split; [exact Hw|]. split; [exact Ho|].
  unfold stamp in *. rewrite Ho, Hh, Hmi, Hs, Hus. unfold DAY_US in *. lia.
Qed.

Lemma entry_after_none_eq st st' : entry_after false false false st st' -> st' = st.
Proof.
  destruct st, st'. unfold entry_after. cbn.
  intros (-> & -> & -> & -> & -> & -> & -> & -> & -> & -> & -> & ->). reflexivity.
Qed.

Lemma store_after_none sd sw sm u u' :
  store_after false false false sd sw sm u u' -> u' = u.
Proof.
  intros (Ht & Hd & Hw & Hm & Hld & Hlw & Hlm & Hdom & Hmods).
  assert (Heq : models u' = models u).
  { apply map_eq. intros name. destruct (models u !! name) as [st|] eqn:E.
    - destruct (Hmods name st E) as (st' & E' & Hst). rewrite E'.
      f_equal. apply entry_after_none_eq. exact Hst.
    - apply not_elem_of_dom. rewrite Hdom. apply not_elem_of_dom. exact E. }
  destruct u, u'. cbn in *. congruence.
Qed.

Lemma reset_if_needed_ok now u u' :
  clock_ok now -> store_ok u -> _reset_if_needed now u = Some u' -> store_ok u'.
Proof.
  intros [Hnow Hrange] Hu E.
  destruct (reset_if_needed_spec now u Hnow Hu)
    as (dd & dw & sw & u'' & _ & _ & _ & _ & _ & _ & Esw & E' & Hafter).
  rewrite E in E'. injection E' as <-.
  destruct (stamp_week_start now sw Hnow Esw) as (Vsw & Osw & _).
  pose proof (weekday_bounds now) as Hwd.
  destruct Hu as (Hd & Hw & Hm & Hrd & Hrw).
  destruct Hafter as (_ & _ & _ & _ & Hld & Hlw & Hlm & _).
  unfold store_ok. rewrite Hld, Hlw, Hlm.
  destruct (datetime_ge now dd), (datetime_ge now dw),
    (negb (month now =? month (last_reset_monthly u)));
    repeat split;
    try assumption; try apply valid_replace_time0; try apply valid_replace_day1_time0;
    try apply Hd; try apply Hw; try apply Hm; try apply Vsw; try assumption;
    change (toordinal (replace_time0 now)) with (toordinal now); lia.
Qed.

(** ** Claims *)

(** Closes the range goals of a concrete [datetime] or store. *)
Ltac solve_concrete :=
  vm_compute; repeat split; first [reflexivity | intro; discriminate].

Lemma string_eqb_false (a b : string) : a <> b -> String.eqb a b = false.
Proof. intros H. apply String.eqb_neq. exact H. Qed.

(** C7: [get_period_start] returns, for the tag daily, the instant with the
    time of day zeroed; for weekly, that start of day minus [weekday] days,
    which is a Monday at 00:00:00 ([weekday] counts from Monday = 0, as
    Monday 2024-01-15 shows); for monthly, day 1 at 00:00:00 of the month;
    and for any other tag the instant itself. *)
Theorem C7_get_period_start (now : datetime) :
  valid_datetime now ->
  get_period_start "daily" now
    = Some (mkdatetime (year now) (month now) (day now) 0 0 0 0) /\
  (exists w,
     get_period_start "weekly" now = Some w /\
     datetime_sub (mkdatetime (year now) (month now) (day now) 0 0 0 0)
                  (timedelta_days (weekday now)) = Some w /\
     0 <= weekday now <= 6 /\
     toordinal w = toordinal now - weekday now /\
     weekday w = 0 /\
     hour w = 0 /\ minute w = 0 /\ second w = 0 /\ microsecond w = 0) /\
  get_period_start "monthly" now
    = Some (mkdatetime (year now) (month now) 1 0 0 0 0) /\
  (forall tag, tag <> "daily" -> tag <> "weekly" -> tag <> "monthly" ->
     get_period_start tag now = Some now) /\
  weekday (mkdatetime 2024 1 15 10 0 0 0) = 0.
Proof.
  intros Hv. split; [reflexivity|]. split.
  - destruct (get_period_start_weekly now Hv)
      as (w & E & Es & _ & Ho & Hw & Ht).
    exists w. split; [exact E|]. split; [exact Es|].
    split; [apply weekday_bounds|]. split; [exact Ho|]. split; [exact Hw|exact Ht].
  - split; [reflexivity|]. split; [|reflexivity].
    intros tag H1 H2 H3. unfold get_period_start.
    rewrite !string_eqb_false by assumption. reflexivity.
Qed.

Lemma C7_get_period_start_witness :
  valid_datetime (mkdatetime 2024 1 18 10 30 15 250) /\
  exists w, get_period_start "weekly" (mkdatetime 2024 1 18 10 30 15 250) = Some w /\
    w = mkdatetime 2024 1 15 0 0 0 0 /\ weekday w = 0.
Proof.
  assert (Hv : valid_datetime (mkdatetime 2024 1 18 10 30 15 250)) by solve_concrete.
  split; [exact Hv|].
  destruct (C7_get_period_start _ Hv) as (_ & (w & E & _ & _ & _ & Hw & _) & _).
  exists w. split; [exact E|]. split; [|exact Hw].
  vm_compute in E. injection E as <-. reflexivity.
Defined.

(** C1: the rollover check fires the daily reset exactly when
    [now >= last_reset_daily + 1 day], the weekly reset exactly when
    [now >= last_reset_weekly + 7 days] and the monthly reset exactly when
    the month of [now] differs from the month of [last_reset_monthly]; a
    reset that fires sets its [last_reset_*] to the period start of [now],
    zeroes the request counter of the period and the three token fields of
    the period in every model entry; nothing else changes. *)
Theorem C1_reset_if_needed_fires (now : datetime) (u : UsageData) :
  valid_datetime now -> store_ok u ->
  exists due_daily due_weekly start_daily start_weekly start_monthly u',
    datetime_add (last_reset_daily u) (timedelta_days 1) = Some due_daily /\
    datetime_add (last_reset_weekly u) (timedelta_weeks 1) = Some due_weekly /\
    get_period_start "daily" now = Some start_daily /\
    get_period_start "weekly" now = Some start_weekly /\
    get_period_start "monthly" now = Some start_monthly /\
    _reset_if_needed now u = Some u' /\
    store_after (datetime_ge now due_daily) (datetime_ge now due_weekly)
      (negb (month now =? month (last_reset_monthly u)))
      start_daily start_weekly start_monthly u u' /\
    (datetime_ge now due_daily = true
       <-> stamp (last_reset_daily u) + DAY_US <= stamp now) /\
    (datetime_ge now due_weekly = true
       <-> stamp (last_reset_weekly u) + 7 * DAY_US <= stamp now) /\
    (negb (month now =? month (last_reset_monthly u)) = true
       <-> month now <> month (last_reset_monthly u)).
Proof.
  intros Hnow Hu.
  destruct (reset_if_needed_spec now u Hnow Hu)
    as (dd & dw & sw & u' & Edd & Edw & Vdd & Vdw & Sdd & Sdw & Esw & E & Hafter).
  exists dd, dw, (replace_time0 now), sw, (replace_day1_time0 now), u'.
  repeat (split; [first [assumption | reflexivity]|]).
  split; [rewrite <- Sdd; apply datetime_ge_stamp; assumption|].
  split; [rewrite <- Sdw; apply datetime_ge_stamp; assumption|].
  rewrite negb_true_iff, Z.eqb_neq. reflexivity.
Qed.

Lemma C1_reset_if_needed_fires_witness :
  valid_datetime (mkdatetime 2024 2 1 0 0 1 0) /\ store_ok scenario_b_store /\
  exists u', _reset_if_needed (mkdatetime 2024 2 1 0 0 1 0) scenario_b_store = Some u' /\
    daily_requests u' = 0 /\ weekly_requests u' = 0 /\ monthly_requests u' = 0 /\
    total_requests u' = 2 /\
    last_reset_monthly u' = mkdatetime 2024 2 1 0 0 0 0.
Proof.
  assert (Hv : valid_datetime (mkdatetime 2024 2 1 0 0 1 0)) by solve_concrete.
  assert (Hu : store_ok scenario_b_store) by solve_concrete.
  split; [exact Hv|]. split; [exact Hu|].
  destruct (C1_reset_if_needed_fires _ _ Hv Hu)
    as (dd & dw & sd & sw & sm & u' & Edd & Edw & Esd & Esw & Esm & E & Hafter & _).
  vm_compute in Edd, Edw, Esd, Esw, Esm.
  injection Edd as <-. injection Edw as <-. injection Esd as <-.
  injection Esw as <-. injection Esm as <-.
  destruct Hafter as (Ht & Hd & Hw & Hm & _ & _ & Hlm & _).
  exists u'. split; [exact E|].
  split; [exact Hd|]. split; [exact Hw|]. split; [exact Hm|].
  split; [exact Ht|exact Hlm].
Defined.

(** C5: when only the reset condition of one period holds, the rollover
    check zeroes the request counter and the per-model token fields of that
    period and moves its [last_reset_*]; the fields of the two other
    periods, the lifetime counters and the set of model keys stay as they
    were. *)
Theorem C5_window_isolation (now : datetime) (u : UsageData) :
  valid_datetime now -> store_ok u ->
  exists due_daily due_weekly start_daily start_weekly start_monthly u',
    datetime_add (last_reset_daily u) (timedelta_days 1) = Some due_daily /\
    datetime_add (last_reset_weekly u) (timedelta_weeks 1) = Some due_weekly /\
    get_period_start "daily" now = Some start_daily /\
    get_period_start "weekly" now = Some start_weekly /\
    get_period_start "monthly" now = Some start_monthly /\
    _reset_if_needed now u = Some u' /\
    (datetime_ge now due_daily = true -> datetime_ge now due_weekly = false ->
     month now = month (last_reset_monthly u) ->
     store_after true false false start_daily start_weekly start_monthly u u') /\
    (datetime_ge now due_daily = false -> datetime_ge now due_weekly = true ->
     month now = month (last_reset_monthly u) ->
     store_after false true false start_daily start_weekly start_monthly u u') /\
    (datetime_ge now due_daily = false -> datetime_ge now due_weekly = false ->
     month now <> month (last_reset_monthly u) ->
     store_after false false true start_daily start_weekly start_monthly u u').
Proof.
  intros Hnow Hu.
  destruct (reset_if_needed_spec now u Hnow Hu)
    as (dd & dw & sw & u' & Edd & Edw & _ & _ & _ & _ & Esw & E & Hafter).
  exists dd, dw, (replace_time0 now), sw, (replace_day1_time0 now), u'.
  repeat (split; [first [assumption | reflexivity]|]).
  split; [|split]; intros Hd Hw Hm; rewrite Hd, Hw in Hafter.
  - apply Z.eqb_eq in Hm. rewrite Hm in Hafter. exact Hafter.
  - apply Z.eqb_eq in Hm. rewrite Hm in Hafter. exact Hafter.
  - apply Z.eqb_neq in Hm. rewrite Hm in Hafter. exact Hafter.
Qed.

Lemma C5_window_isolation_witness :
  valid_datetime (mkdatetime 2024 1 17 9 0 0 0) /\ store_ok scenario_b_store /\
  exists u', _reset_if_needed (mkdatetime 2024 1 17 9 0 0 0) scenario_b_store = Some u' /\
    daily_requests u' = 0 /\ weekly_requests u' = 2 /\ monthly_requests u' = 2 /\
    total_requests u' = 2 /\
    last_reset_daily u' = mkdatetime 2024 1 17 0 0 0 0 /\
    last_reset_weekly u' = mkdatetime 2024 1 15 0 0 0 0 /\
    last_reset_monthly u' = mkdatetime 2024 1 1 0 0 0 0.
Proof.
  assert (Hv : valid_datetime (mkdatetime 2024 1 17 9 0 0 0)) by solve_concrete.
  assert (Hu : store_ok scenario_b_store) by solve_concrete.
  split; [exact Hv|]. split; [exact Hu|].
  destruct (C5_window_isolation _ _ Hv Hu)
    as (dd & dw & sd & sw & sm & u' & Edd & Edw & Esd & Esw & Esm & E & Hdaily & _).
  vm_compute in Edd, Edw, Esd, Esw, Esm.
  injection Edd as <-. injection Edw as <-. injection Esd as <-.
  injection Esw as <-. injection Esm as <-.
  destruct (Hdaily eq_refl eq_refl eq_refl)
    as (Ht & Hd & Hw & Hm & Hld & Hlw & Hlm & _).
  exists u'. split; [exact E|]. repeat (split; [assumption|]). exact Hlm.
Defined.

(** C3: after a rollover check at [t0] on a store whose daily and weekly
    windows did not start after [t0], a single check 40 days later fires
    the daily, the weekly and the monthly reset, each once, and the three
    [last_reset_*] become the period starts of the final [now]. *)
Theorem C3_catch_up_after_40_days (t0 now : datetime) (u0 u : UsageData) :
  valid_datetime t0 -> store_ok u0 ->
  datetime_ge t0 (last_reset_daily u0) = true ->
  datetime_ge t0 (last_reset_weekly u0) = true ->
  _reset_if_needed t0 u0 = Some u ->
  datetime_add t0 (timedelta_days 40) = Some now ->
  exists start_daily start_weekly start_monthly u',
    get_period_start "daily" now = Some start_daily /\
    get_period_start "weekly" now = Some start_weekly /\
    get_period_start "monthly" now = Some start_monthly /\
    _reset_if_needed now u = Some u' /\
    store_after true true true start_daily start_weekly start_monthly u u'.
Proof.
  intros Ht0 Hu0 Hgd Hgw E0 Enow.
  destruct (datetime_add_days_inv _ _ _ Ht0 Enow) as (Vnow & Onow & Snow & Rnow).
  destruct (reset_if_needed_spec t0 u0 Ht0 Hu0)
    as (dd0 & dw0 & sw0 & u1 & _ & _ & _ & _ & _ & _ & Esw0 & E1 & Hafter0).
  rewrite E0 in E1. injection E1 as <-.
  destruct (stamp_week_start t0 sw0 Ht0 Esw0) as (Vsw0 & _ & Ssw0 & _).
  pose proof (stamp_replace_time0 t0 Ht0) as [Ssd0 _].
  destruct Hu0 as (Vd0 & Vw0 & Vm0 & _ & _).
  apply datetime_ge_stamp in Hgd; [|assumption..].
  apply datetime_ge_stamp in Hgw; [|assumption..].
  destruct Hafter0 as (_ & _ & _ & _ & Hld & Hlw & Hlm & _).
  assert (Hd : valid_datetime (last_reset_daily u) /\
               stamp (last_reset_daily u) <= stamp t0).
  { rewrite Hld. destruct (datetime_ge t0 dd0);
      [split; [apply valid_replace_time0; exact Ht0|exact Ssd0]|split; assumption]. }
  assert (Hw : valid_datetime (last_reset_weekly u) /\
               stamp (last_reset_weekly u) <= stamp t0).
  { rewrite Hlw. destruct (datetime_ge t0 dw0); split; assumption. }
  assert (Hm : valid_datetime (last_reset_monthly u) /\
               month (last_reset_monthly u) = month t0).
  { rewrite Hlm. destruct (Z.eqb_spec (month t0) (month (last_reset_monthly u0)));
      cbn [negb]; [split; [assumption|congruence]|].
    split; [apply valid_replace_day1_time0; exact Ht0|reflexivity]. }
  destruct Hd as [Vd Sd], Hw as [Vw Sw], Hm as [Vm Mm].
  pose proof (stamp_le_toordinal _ _ Vd Ht0 Sd) as Od.
  pose proof (stamp_le_toordinal _ _ Vw Ht0 Sw) as Ow.
  assert (Hu : store_ok u)
    by (split; [exact Vd|split; [exact Vw|split; [exact Vm|lia]]]).
  destruct (reset_if_needed_spec now u Vnow Hu)
    as (dd & dw & sw & u' & _ & _ & Vdd & Vdw & Sdd & Sdw & Esw & E & Hafter).
  assert (Fd : datetime_ge now dd = true)
    by (apply datetime_ge_stamp; [assumption..|unfold DAY_US in *; lia]).
  assert (Fw : datetime_ge now dw = true)
    by (apply datetime_ge_stamp; [assumption..|unfold DAY_US in *; lia]).
  assert (Fm : negb (month now =? month (last_reset_monthly u)) = true).
  { rewrite Mm. apply negb_true_iff, Z.eqb_neq.
    apply month_after_40_days; assumption. }
  rewrite Fd, Fw, Fm in Hafter.
  exists (replace_time0 now), sw, (replace_day1_time0 now), u'.
  repeat (split; [first [assumption | reflexivity]|]). exact Hafter.
Qed.

Lemma C3_catch_up_after_40_days_witness :
  valid_datetime scenario_b_now /\ store_ok scenario_b_store /\
  datetime_ge scenario_b_now (last_reset_daily scenario_b_store) = true /\
  datetime_ge scenario_b_now (last_reset_weekly scenario_b_store) = true /\
  _reset_if_needed scenario_b_now scenario_b_store = Some scenario_b_store /\
  datetime_add scenario_b_now (timedelta_days 40)
    = Some (mkdatetime 2024 2 25 10 0 0 0) /\
  exists u', _reset_if_needed (mkdatetime 2024 2 25 10 0 0 0) scenario_b_store = Some u' /\
    last_reset_daily u' = mkdatetime 2024 2 25 0 0 0 0 /\
    last_reset_weekly u' = mkdatetime 2024 2 19 0 0 0 0 /\
    last_reset_monthly u' = mkdatetime 2024 2 1 0 0 0 0 /\
    daily_requests u' = 0 /\ weekly_requests u' = 0 /\ monthly_requests u' = 0.
Proof.
  assert (Hv : valid_datetime scenario_b_now) by solve_concrete.
  assert (Hu : store_ok scenario_b_store) by solve_concrete.
  assert (E0 : _reset_if_needed scenario_b_now scenario_b_store = Some scenario_b_store)
    by (vm_compute; reflexivity).
  assert (En : datetime_add scenario_b_now (timedelta_days 40)
               = Some (mkdatetime 2024 2 25 10 0 0 0)) by (vm_compute; reflexivity).
  split; [exact Hv|]. split; [exact Hu|].
  split; [reflexivity|]. split; [reflexivity|]. split; [exact E0|]. split; [exact En|].
  destruct (C3_catch_up_after_40_days _ _ _ _ Hv Hu eq_refl eq_refl E0 En)
    as (sd & sw & sm & u' & Esd & Esw & Esm & E & Hafter).
  vm_compute in Esd, Esw, Esm.
  injection Esd as <-. injection Esw as <-. injection Esm as <-.
  destruct Hafter as (_ & Hd & Hw & Hm & Hld & Hlw & Hlm & _).
  exists u'. split; [exact E|]. repeat (split; [assumption|]). exact Hm.
Defined.

(** C4: a second rollover check at the same [now] leaves the store as the
    first one left it; and when none of the three conditions holds, the
    first check leaves the store as it was. *)
Theorem C4_reset_if_needed_idempotent (now : datetime) (u : UsageData) :
  clock_ok now -> store_ok u ->
  exists u1,
    _reset_if_needed now u = Some u1 /\
    _reset_if_needed now u1 = Some u1 /\
    (forall due_daily due_weekly,
       datetime_add (last_reset_daily u) (timedelta_days 1) = Some due_daily ->
       datetime_add (last_reset_weekly u) (timedelta_weeks 1) = Some due_weekly ->
       datetime_ge now due_daily = false ->
       datetime_ge now due_weekly = false ->
       month now = month (last_reset_monthly u) ->
       u1 = u).
Proof.
  intros Hclock Hu. pose proof Hclock as [Hnow Hrange].
  destruct (reset_if_needed_spec now u Hnow Hu)
    as (dd & dw & sw & u1 & Edd & Edw & Vdd & Vdw & Sdd & Sdw & Esw & E & Hafter).
  pose proof (reset_if_needed_ok now u u1 Hclock Hu E) as Hu1.
  destruct (reset_if_needed_spec now u1 Hnow Hu1)
    as (dd1 & dw1 & sw1 & u2 & Edd1 & Edw1 & Vdd1 & Vdw1 & Sdd1 & Sdw1 & _ & E1 & Hafter1).
  exists u1. split; [exact E|]. split.
  - destruct Hafter as (_ & _ & _ & _ & Hld & Hlw & Hlm & _).
    destruct (stamp_week_start now sw Hnow Esw) as (_ & _ & _ & Ssw).
    pose proof (stamp_replace_time0 now Hnow) as [_ Ssd].
    assert (Fd : datetime_ge now dd1 = false).
    { destruct (datetime_ge now dd) eqn:Fd.
      - apply datetime_ge_false_stamp; [assumption..|]. rewrite Sdd1, Hld. lia.
      - rewrite Hld, Edd in Edd1. injection Edd1 as <-. exact Fd. }
    assert (Fw : datetime_ge now dw1 = false).
    { destruct (datetime_ge now dw) eqn:Fw.
      - apply datetime_ge_false_stamp; [assumption..|]. rewrite Sdw1, Hlw. lia.
      - rewrite Hlw, Edw in Edw1. injection Edw1 as <-. exact Fw. }
    assert (Fm : negb (month now =? month (last_reset_monthly u1)) = false).
    { rewrite Hlm. destruct (Z.eqb_spec (month now) (month (last_reset_monthly u)));
        cbn [negb].
      - apply negb_false_iff, Z.eqb_eq. assumption.
      - apply negb_false_iff, Z.eqb_eq. reflexivity. }
    rewrite Fd, Fw, Fm in Hafter1.
    apply store_after_none in Hafter1. rewrite E1, Hafter1. reflexivity.
  - intros dd' dw' Edd' Edw' Fd Fw Fm.
    rewrite Edd in Edd'. injection Edd' as <-.
    rewrite Edw in Edw'. injection Edw' as <-.
    apply Z.eqb_eq in Fm. rewrite Fd, Fw, Fm in Hafter.
    apply store_after_none in Hafter. exact Hafter.
Qed.

Lemma C4_reset_if_needed_idempotent_witness :
  clock_ok (mkdatetime 2024 2 1 0 0 1 0) /\ store_ok scenario_b_store /\
  exists u1,
    _reset_if_needed (mkdatetime 2024 2 1 0 0 1 0) scenario_b_store = Some u1 /\
    _reset_if_needed (mkdatetime 2024 2 1 0 0 1 0) u1 = Some u1.
Proof.
  assert (Hc : clock_ok (mkdatetime 2024 2 1 0 0 1 0)) by solve_concrete.
  assert (Hu : store_ok scenario_b_store) by solve_concrete.
  split; [exact Hc|]. split; [exact Hu|].
  destruct (C4_reset_if_needed_idempotent _ _ Hc Hu) as (u1 & E & E1 & _).
  exists u1. split; [exact E|exact E1].
Defined.

(** C9: the monthly check compares month numbers only: when [now] lies in
    the month of the same number of a later year than
    [last_reset_monthly], the rollover check keeps [monthly_requests],
    every model's monthly token fields and [last_reset_monthly], although
    the month of [now] starts at another instant than the stored one. *)
Theorem C9_same_month_of_later_year (now : datetime) (u : UsageData) :
  valid_datetime now -> store_ok u ->
  year (last_reset_monthly u) < year now ->
  month now = month (last_reset_monthly u) ->
  exists u' start_monthly,
    _reset_if_needed now u = Some u' /\
    monthly_requests u' = monthly_requests u /\
    last_reset_monthly u' = last_reset_monthly u /\
    (forall name st, models u !! name = Some st ->
       exists st', models u' !! name = Some st' /\
         monthly_input_tokens st' = monthly_input_tokens st /\
         monthly_output_tokens st' = monthly_output_tokens st /\
         monthly_total_tokens st' = monthly_total_tokens st) /\
    get_period_start "monthly" now = Some start_monthly /\
    start_monthly <> last_reset_monthly u'.
Proof.
  intros Hnow Hu Hy Hm.
  destruct (reset_if_needed_spec now u Hnow Hu)
    as (dd & dw & sw & u' & _ & _ & _ & _ & _ & _ & _ & E & Hafter).
  apply Z.eqb_eq in Hm. rewrite Hm in Hafter. cbn [negb] in Hafter.
  destruct Hafter as (_ & _ & _ & Hmr & _ & _ & Hlm & _ & Hmods).
  exists u', (replace_day1_time0 now).
  split; [exact E|]. split; [exact Hmr|]. split; [exact Hlm|]. split.
  - intros name st Hst. destruct (Hmods name st Hst) as (st' & E' & Hst').
    exists st'. split; [exact E'|]. unfold entry_after in Hst'. tauto.
  - split; [reflexivity|]. rewrite Hlm. intros Heq.
    apply (f_equal year) in Heq. cbn in Heq. lia.
Qed.

Lemma C9_same_month_of_later_year_witness :
  valid_datetime (mkdatetime 2025 1 16 10 0 0 0) /\ store_ok scenario_b_store /\
  year (last_reset_monthly scenario_b_store) < year (mkdatetime 2025 1 16 10 0 0 0) /\
  month (mkdatetime 2025 1 16 10 0 0 0) = month (last_reset_monthly scenario_b_store) /\
  exists u',
    _reset_if_needed (mkdatetime 2025 1 16 10 0 0 0) scenario_b_store = Some u' /\
    monthly_requests u' = 2 /\
    last_reset_monthly u' = mkdatetime 2024 1 1 0 0 0 0.
Proof.
  assert (Hv : valid_datetime (mkdatetime 2025 1 16 10 0 0 0)) by solve_concrete.
  assert (Hu : store_ok scenario_b_store) by solve_concrete.
  assert (Hy : year (last_reset_monthly scenario_b_store)
               < year (mkdatetime 2025 1 16 10 0 0 0)) by reflexivity.
  split; [exact Hv|]. split; [exact Hu|]. split; [exact Hy|]. split; [reflexivity|].
  destruct (C9_same_month_of_later_year _ _ Hv Hu Hy eq_refl)
    as (u' & sm & E & Hmr & Hlm & _).
  exists u'. split; [exact E|]. split; [exact Hmr|exact Hlm].
Defined.

(** ** Reports *)

Lemma reset_if_needed_frame now u u' :
  _reset_if_needed now u = Some u' ->
  dom (models u') = dom (models u) /\ lifetime_kept u u'.
Proof.
  unfold _reset_if_needed.
  change (get_period_start "daily" now) with (Some (replace_time0 now)).
  change (get_period_start "monthly" now) with (Some (replace_day1_time0 now)).
  destruct (datetime_add (last_reset_daily u) (timedelta_days 1)) as [dd|];
    [|discriminate].
  cbn [mbind option_bind].
  destruct (datetime_ge now dd); cbn [mbind option_bind last_reset_weekly];
    (destruct (datetime_add (last_reset_weekly u) (timedelta_weeks 1)) as [dw|];
     [|discriminate]); cbn [mbind option_bind];
    destruct (datetime_ge now dw);
    try (destruct (get_period_start "weekly" now) as [sw|]; [|discriminate]);
    cbn [mbind option_bind last_reset_monthly];
    destruct (negb (month now =? month (last_reset_monthly u)));
    cbn [mbind option_bind]; intros E; injection E as <-.
  all: unfold lifetime_kept; cbn [total_requests models].
  all: split; [rewrite ?(dom_fmap_L (D:=gset string)); reflexivity|].
  all: split; [reflexivity|].
  all: intros name st Hst; rewrite ?lookup_fmap, Hst; cbn [fmap option_fmap option_map];
    eexists; (split; [reflexivity|]); repeat split.
Qed.

Lemma update_after_reset name usage now u u1 :
  _reset_if_needed now u = Some u1 ->
  exists u2,
    update_usage_stats name (mkResult (Some usage)) now u = Some u2 /\
    store_plus name (getattr0 (prompt_token_count usage))
      (getattr0 (candidates_token_count usage))
      (getattr0 (total_token_count usage)) u1 u2.
Proof.
  intros E. unfold update_usage_stats. cbn [usage_metadata]. rewrite E.
  cbn [mbind option_bind]. unfold defaultdict_getitem.
  destruct (models u1 !! name) as [st|] eqn:Hst.
  - eexists. split; [reflexivity|].
    unfold store_plus. cbn [total_requests daily_requests weekly_requests
      monthly_requests last_reset_daily last_reset_weekly last_reset_monthly models].
    repeat (split; [reflexivity|]). split; [|split].
    + exists st. eexists. split; [left; exact Hst|].
      split; [apply lookup_insert_eq|]. repeat split.
    + apply dom_insert_L.
    + intros other Hne. apply lookup_insert_ne. congruence.
  - eexists. split; [reflexivity|].
    unfold store_plus. cbn [total_requests daily_requests weekly_requests
      monthly_requests last_reset_daily last_reset_weekly last_reset_monthly models].
    repeat (split; [reflexivity|]). split; [|split].
    + eexists. eexists. split; [right; split; [exact Hst|reflexivity]|].
      split; [apply lookup_insert_eq|]. repeat split.
    + rewrite !dom_insert_L. set_solver.
    + intros other Hne. rewrite !lookup_insert_ne by congruence. reflexivity.
Qed.

Lemma update_usage_stats_inv name r now u u' :
  update_usage_stats name r now u = Some u' ->
  match reported r with
  | None => u' = u
  | Some (i, o, t) =>
    exists u1, _reset_if_needed now u = Some u1 /\ store_plus name i o t u1 u'
  end.
Proof.
  unfold reported. destruct r as [[usage|]].
  - cbn [usage_metadata]. intros E.
    destruct (_reset_if_needed now u) as [u1|] eqn:E1.
    + destruct (update_after_reset name usage now u u1 E1) as (u2 & E2 & H).
      rewrite E in E2. injection E2 as <-. exists u1. split; [reflexivity|exact H].
    + unfold update_usage_stats in E. cbn [usage_metadata] in E.
      rewrite E1 in E. discriminate.
  - cbn. intros [= <-]. reflexivity.
Qed.

Lemma store_plus_ok name i o t u u' : store_plus name i o t u u' -> store_ok u -> store_ok u'.
Proof.
  intros (_ & _ & _ & _ & Hd & Hw & Hm & _). unfold store_ok. rewrite Hd, Hw, Hm. tauto.
Qed.

(** C2: a report with usage metadata first runs the rollover check, then
    adds one to [total_requests] and to the three periodic request
    counters, creates an all-zero entry for the model if it has none, and
    adds the reported counts to the lifetime fields and to the fields of
    the three periods of that entry.  In Scenario B the second report, a
    day after the first, leaves [daily_requests = 1], [total_requests = 2],
    lifetime [input_tokens = 11] and [daily_input_tokens = 1]. *)
Theorem C2_update_usage_stats (model_name : string) (i o t : Z)
    (now : datetime) (u : UsageData) :
  valid_datetime now -> store_ok u ->
  (exists u1 u2,
     _reset_if_needed now u = Some u1 /\
     update_usage_stats model_name (usage i o t) now u = Some u2 /\
     store_plus model_name i o t u1 u2) /\
  (exists s0 sA sB st,
     init scenario_created = Some s0 /\
     update_usage_stats "model-x" (usage 10 5 15) scenario_a_now s0 = Some sA /\
     update_usage_stats "model-x" (usage 1 1 2) scenario_b_now sA = Some sB /\
     daily_requests sB = 1 /\ total_requests sB = 2 /\
     models sB !! "model-x" = Some st /\
     input_tokens st = 11 /\ daily_input_tokens st = 1).
Proof.
  intros Hnow Hu. split.
  - destruct (reset_if_needed_spec now u Hnow Hu)
      as (_ & _ & _ & u1 & _ & _ & _ & _ & _ & _ & _ & E & _).
    destruct (update_after_reset model_name
                (mkUsageMetadata (Some i) (Some o) (Some t)) now u u1 E)
      as (u2 & E2 & H).
    exists u1, u2. split; [exact E|]. split; [exact E2|exact H].
  - do 4 eexists.
    split; [vm_compute; reflexivity|].
    split; [vm_compute; reflexivity|].
    split; [vm_compute; reflexivity|].
    split; [reflexivity|]. split; [reflexivity|].
    split; [vm_compute; reflexivity|]. split; reflexivity.
Qed.

Lemma C2_update_usage_stats_witness :
  valid_datetime scenario_b_now /\ store_ok scenario_b_store /\
  exists u2,
    update_usage_stats "model-y" (usage 3 4 7) scenario_b_now scenario_b_store = Some u2 /\
    total_requests u2 = 3 /\ daily_requests u2 = 2.
Proof.
  assert (Hv : valid_datetime scenario_b_now) by solve_concrete.
  assert (Hu : store_ok scenario_b_store) by solve_concrete.
  split; [exact Hv|]. split; [exact Hu|].
  destruct (C2_update_usage_stats "model-y" 3 4 7 _ _ Hv Hu)
    as [(u1 & u2 & E1 & E2 & Ht & Hd & _) _].
  vm_compute in E1. injection E1 as <-.
  exists u2. split; [exact E2|]. split; [exact Ht|exact Hd].
Defined.

(** C10: a result that has [usage_metadata] is recorded whatever counts
    the metadata lacks: the four request counters go up by one, the
    model's entry exists afterwards, and a missing count adds 0 (with all
    three missing, a zero-token record); only a result without
    [usage_metadata] leaves the store as it was. *)
Theorem C10_missing_token_counts (model_name : string) (usage : UsageMetadata)
    (now : datetime) (u : UsageData) :
  valid_datetime now -> store_ok u ->
  (exists u1 u2,
     _reset_if_needed now u = Some u1 /\
     update_usage_stats model_name (mkResult (Some usage)) now u = Some u2 /\
     store_plus model_name
       (match prompt_token_count usage with Some n => n | None => 0 end)
       (match candidates_token_count usage with Some n => n | None => 0 end)
       (match total_token_count usage with Some n => n | None => 0 end) u1 u2 /\
     total_requests u2 = total_requests u + 1 /\
     is_Some (models u2 !! model_name) /\
     u2 <> u) /\
  (exists u1 u2,
     _reset_if_needed now u = Some u1 /\
     update_usage_stats model_name
       (mkResult (Some (mkUsageMetadata None None None))) now u = Some u2 /\
     store_plus model_name 0 0 0 u1 u2) /\
  update_usage_stats model_name (mkResult None) now u = Some u.
Proof.
  intros Hnow Hu.
  destruct (reset_if_needed_spec now u Hnow Hu)
    as (dd & dw & sw & u1 & _ & _ & _ & _ & _ & _ & _ & E & Hafter).
  split; [|split; [|reflexivity]].
  - destruct (update_after_reset model_name usage now u u1 E) as (u2 & E2 & H).
    exists u1, u2. split; [exact E|]. split; [exact E2|]. split; [exact H|].
    destruct Hafter as (Ht1 & _).
    pose proof H as (Ht2 & _ & _ & _ & _ & _ & _ & (st & st' & _ & Hst' & _) & _).
    assert (Ht : total_requests u2 = total_requests u + 1) by lia.
    split; [exact Ht|]. split; [eexists; exact Hst'|].
    intros Heq. rewrite Heq in Ht. lia.
  - destruct (update_after_reset model_name (mkUsageMetadata None None None) now u u1 E)
      as (u2 & E2 & H).
    exists u1, u2. split; [exact E|]. split; [exact E2|exact H].
Qed.

Lemma C10_missing_token_counts_witness :
  valid_datetime scenario_b_now /\ store_ok scenario_b_store /\
  exists u2,
    update_usage_stats "model-y" (mkResult (Some (mkUsageMetadata (Some 5) None None)))
      scenario_b_now scenario_b_store = Some u2 /\
    total_requests u2 = 3 /\ is_Some (models u2 !! "model-y").
Proof.
  assert (Hv : valid_datetime scenario_b_now) by solve_concrete.
  assert (Hu : store_ok scenario_b_store) by solve_concrete.
  split; [exact Hv|]. split; [exact Hu|].
  destruct (C10_missing_token_counts "model-y" (mkUsageMetadata (Some 5) None None)
              _ _ Hv Hu) as [(u1 & u2 & _ & E2 & _ & Ht & Hs & _) _].
  exists u2. split; [exact E2|]. split; [exact Ht|exact Hs].
Defined.

Lemma triple_eq (a b c a' b' c' : Z) :
  a = a' -> b = b' -> c = c' -> (a, b, c) = (a', b', c').
Proof. intros -> -> ->. reflexivity. Qed.

Lemma lifetime_of_kept name u u' :
  dom (models u') = dom (models u) -> lifetime_kept u u' ->
  lifetime_of name u' = lifetime_of name u.
Proof.
  intros Hdom [_ Hk]. unfold lifetime_of.
  destruct (models u !! name) as [st|] eqn:E.
  - destruct (Hk name st E) as (st' & -> & -> & -> & ->). reflexivity.
  - assert (models u' !! name = None) as ->; [|reflexivity].
    apply not_elem_of_dom. rewrite Hdom. apply not_elem_of_dom. exact E.
Qed.

Lemma lifetime_of_plus model i o t name u u' :
  store_plus model i o t u u' ->
  lifetime_of name u'
  = triple_add (if String.eqb model name then (i, o, t) else (0, 0, 0))
               (lifetime_of name u).
Proof.
  intros (_ & _ & _ & _ & _ & _ & _ & (st & st' & Hst & Hst' & Hp) & _ & Hother).
  unfold lifetime_of. destruct (String.eqb_spec model name) as [<-|Hne].
  - rewrite Hst'. destruct Hp as (-> & -> & -> & _).
    destruct Hst as [->|[-> ->]]; cbn; apply triple_eq; lia.
  - rewrite (Hother name) by congruence.
    destruct (models u !! name); cbn; reflexivity.
Qed.

Lemma update_usage_stats_grows name r now u u' :
  (forall i o t, reported r = Some (i, o, t) -> 0 <= i /\ 0 <= o /\ 0 <= t) ->
  update_usage_stats name r now u = Some u' -> lifetime_grows u u'.
Proof.
  intros Hpos E. apply update_usage_stats_inv in E.
  destruct (reported r) as [[[i o] t]|].
  - destruct (Hpos i o t eq_refl) as (Hi & Ho & Ht).
    destruct E as (u1 & E1 & Hp).
    destruct (reset_if_needed_frame _ _ _ E1) as [_ [Ht1 Hk]].
    destruct Hp as (Ht2 & _ & _ & _ & _ & _ & _ & (st & st' & Hst & Hst' & He) & _ & Hother).
    split; [lia|]. intros n s Hs.
    destruct (Hk n s Hs) as (s1 & Hs1 & Ei & Eo & Et).
    destruct (String.eqb_spec n name) as [->|Hne].
    + exists st'. split; [exact Hst'|].
      destruct Hst as [Hst|[Hst _]]; [|congruence].
      assert (st = s1) as -> by congruence.
      destruct He as (-> & -> & -> & _). lia.
    + exists s1. split; [rewrite Hother by exact Hne; exact Hs1|]. lia.
  - subst u'. split; [lia|]. intros n s Hs. exists s. split; [exact Hs|lia].
Qed.

Lemma init_spec t0 :
  clock_ok t0 ->
  exists u0, init t0 = Some u0 /\ store_ok u0 /\ total_requests u0 = 0 /\ models u0 = ∅.
Proof.
  intros [Hv Hr]. unfold init.
  destruct (get_period_start_weekly t0 Hv) as (w & E & _).
  destruct (stamp_week_start t0 w Hv E) as (Vw & Ow & _).
  pose proof (weekday_bounds t0) as Hwd.
  change (get_period_start "daily" t0) with (Some (replace_time0 t0)).
  change (get_period_start "monthly" t0) with (Some (replace_day1_time0 t0)).
  rewrite E. cbn [mbind option_bind]. eexists. split; [reflexivity|].
  split; [|split; reflexivity].
  unfold store_ok. cbn [last_reset_daily last_reset_weekly last_reset_monthly].
  split; [apply valid_replace_time0; exact Hv|]. split; [exact Vw|].
  split; [apply valid_replace_day1_time0; exact Hv|].
  change (toordinal (replace_time0 t0)) with (toordinal t0). lia.
Qed.

Lemma record_all_spec calls :
  forall u, store_ok u ->
  Forall (fun c => clock_ok (call_now c) /\ is_Some (usage_metadata (call_result c))) calls ->
  exists u', record_all calls u = Some u' /\
    total_requests u' = total_requests u + Z.of_nat (length calls) /\
    forall name, lifetime_of name u'
                 = triple_add (reported_sum name calls) (lifetime_of name u).
Proof.
  induction calls as [|c rest IH]; intros u Hu Hall.
  - exists u. split; [reflexivity|]. split; [cbn; lia|].
    intros name. cbn. destruct (lifetime_of name u) as [[? ?] ?]. reflexivity.
  - inversion Hall as [|? ? [Hc [usage Hmeta]] Hrest]; subst.
    destruct (reset_if_needed_spec (call_now c) u (proj1 Hc) Hu)
      as (_ & _ & _ & u1 & _ & _ & _ & _ & _ & _ & _ & E1 & _).
    destruct c as [model [meta] now]. cbn [call_now call_model call_result usage_metadata] in *.
    subst meta.
    destruct (update_after_reset model usage now u u1 E1) as (u2 & E2 & Hp).
    pose proof (reset_if_needed_ok _ _ _ Hc Hu E1) as Hu1.
    pose proof (store_plus_ok _ _ _ _ _ _ Hp Hu1) as Hu2.
    destruct (IH u2 Hu2 Hrest) as (u' & E' & Ht & Hl).
    exists u'. cbn [record_all call_model call_result call_now].
    rewrite E2. cbn [mbind option_bind]. split; [exact E'|].
    destruct (reset_if_needed_frame _ _ _ E1) as [Hdom Hk].
    pose proof Hp as (Ht2 & _). pose proof Hk as (Ht1 & _).
    split; [rewrite Ht, Ht2, Ht1; cbn [length]; lia|].
    intros name. rewrite Hl, (lifetime_of_plus _ _ _ _ name _ _ Hp),
      (lifetime_of_kept name _ _ Hdom Hk).
    cbn [reported_sum call_result call_model reported usage_metadata].
    destruct (reported_sum name rest) as [[si so] st].
    destruct (lifetime_of name u) as [[li lo] lt].
    destruct (String.eqb model name); cbn; apply triple_eq; lia.
Qed.

(** C6: no operation of the store lowers a lifetime counter: the rollover
    check and the scheduled refresh keep [total_requests] and every
    model's lifetime token fields, and a report of non-negative counts does
    not lower them; after any finite sequence of reports with usage
    metadata on a fresh store, [total_requests] is the number of reports
    and the lifetime token fields of every model are the sums of the
    counts reported for it. *)
Theorem C6_lifetime_counters :
  (forall now u u', _reset_if_needed now u = Some u' -> lifetime_kept u u') /\
  (forall now u u', _async_update_data now u = Some u' -> lifetime_kept u u') /\
  (forall name r now u u',
     (forall i o t, reported r = Some (i, o, t) -> 0 <= i /\ 0 <= o /\ 0 <= t) ->
     update_usage_stats name r now u = Some u' -> lifetime_grows u u') /\
  (forall t0 calls,
     clock_ok t0 ->
     Forall (fun c => clock_ok (call_now c) /\
                      is_Some (usage_metadata (call_result c))) calls ->
     exists u0 u,
       init t0 = Some u0 /\ record_all calls u0 = Some u /\
       total_requests u = Z.of_nat (length calls) /\
       forall name, lifetime_of name u = reported_sum name calls).
Proof.
  split; [|split; [|split]].
  - intros now u u' E. apply (reset_if_needed_frame _ _ _ E).
  - intros now u u' E. apply (reset_if_needed_frame _ _ _ E).
  - apply update_usage_stats_grows.
  - intros t0 calls Ht0 Hall.
    destruct (init_spec t0 Ht0) as (u0 & E0 & Hu0 & Ht & Hm).
    destruct (record_all_spec calls u0 Hu0 Hall) as (u & E & Htot & Hl).
    exists u0, u. split; [exact E0|]. split; [exact E|]. split; [lia|].
    intros name. rewrite Hl. unfold lifetime_of. rewrite Hm, lookup_empty.
    destruct (reported_sum name calls) as [[? ?] ?]. cbn. apply triple_eq; lia.
Qed.

Lemma C6_lifetime_counters_witness :
  clock_ok scenario_created /\
  Forall (fun c => clock_ok (call_now c) /\
                   is_Some (usage_metadata (call_result c))) scenario_calls /\
  exists u0 u,
    init scenario_created = Some u0 /\ record_all scenario_calls u0 = Some u /\
    total_requests u = 2 /\ lifetime_of "model-x" u = (11, 6, 17).
Proof.
  assert (Hc : clock_ok scenario_created) by solve_concrete.
  assert (Hall : Forall (fun c => clock_ok (call_now c) /\
                   is_Some (usage_metadata (call_result c))) scenario_calls).
  { repeat constructor; try (eexists; reflexivity); solve_concrete. }
  split; [exact Hc|]. split; [exact Hall|].
  destruct C6_lifetime_counters as (_ & _ & _ & Hseq).
  destruct (Hseq _ _ Hc Hall) as (u0 & u & E0 & E & Ht & Hl).
  exists u0, u. split; [exact E0|]. split; [exact E|]. split; [exact Ht|].
  rewrite Hl. reflexivity.
Defined.

(** ** Reads *)

Lemma model_sensors_model model_name sn :
  In sn (model_sensors model_name) -> sensor_model sn = Some model_name.
Proof.
  unfold model_sensors. cbn.
  intros H. repeat (destruct H as [<-|H]; [reflexivity|]). destruct H.
Qed.

Lemma native_value_present sn c :
  (forall name, sensor_model sn = Some name -> name ∈ dom (models (usage_data c))) ->
  snd (native_value sn c) = c.
Proof.
  intros Hin. unfold native_value. destruct c as [u b]. cbn [data_bound usage_data] in *.
  destruct b; [|reflexivity].
  destruct sn as [|model key|period|model period key]; cbn [snd]; try reflexivity.
  - specialize (Hin model eq_refl). apply elem_of_dom in Hin as [st Hst].
    unfold defaultdict_getitem. rewrite Hst. cbn [snd]. destruct u. reflexivity.
  - specialize (Hin model eq_refl). apply elem_of_dom in Hin as [st Hst].
    unfold defaultdict_getitem. rewrite Hst. cbn [snd]. destruct u. reflexivity.
Qed.

(** A read through the [defaultdict] for a model without entry inserts a
    zero entry: the store after the read has one more key. *)
Lemma native_value_absent_inserts :
  models scenario_b_store !! "model-y" = None /\
  fst (native_value (ModelTokenSensor "model-y" "input")
         (mkCoordinator scenario_b_store true)) = Some 0 /\
  models (usage_data (snd (native_value (ModelTokenSensor "model-y" "input")
                             (mkCoordinator scenario_b_store true)))) !! "model-y"
  = Some default_model_stats.
Proof. split; [|split]; vm_compute; reflexivity. Qed.

(** C8, as the code has it: the scheduled refresh is the rollover check,
    which may reset periodic fields but keeps the set of model keys and the
    lifetime counters; a report with usage metadata adds the key of its
    model and no other, and a report without metadata adds none; a sensor
    read for a model that has an entry leaves the store as it is; and the
    sensors [async_setup_entry] creates read models that have an entry. *)
Theorem C8_keys_and_reads :
  (forall now u u',
     _async_update_data now u = Some u' ->
     _reset_if_needed now u = Some u' /\
     dom (models u') = dom (models u) /\ lifetime_kept u u') /\
  (forall name r now u u',
     update_usage_stats name r now u = Some u' ->
     dom (models u')
     = match usage_metadata r with
       | Some _ => {[name]} ∪ dom (models u)
       | None => dom (models u)
       end) /\
  (forall sn c,
     (forall name, sensor_model sn = Some name ->
                   name ∈ dom (models (usage_data c))) ->
     snd (native_value sn c) = c) /\
  (forall now c sensors c',
     async_setup_entry now c = Some (sensors, c') ->
     forall sn name, In sn sensors -> sensor_model sn = Some name ->
       name ∈ dom (models (usage_data c'))).
Proof.
  split; [|split; [|split]].
  - intros now u u' E. split; [exact E|]. apply (reset_if_needed_frame _ _ _ E).
  - intros name r now u u' E. apply update_usage_stats_inv in E.
    unfold reported in E. destruct (usage_metadata r) as [meta|].
    + destruct E as (u1 & E1 & Hp).
      destruct (reset_if_needed_frame _ _ _ E1) as [Hdom _].
      destruct Hp as (_ & _ & _ & _ & _ & _ & _ & _ & Hd & _).
      rewrite Hd, Hdom. reflexivity.
    + subst u'. reflexivity.
  - apply native_value_present.
  - intros now c sensors c' E sn name Hin Hsn.
    unfold async_setup_entry, async_refresh in E.
    destruct (_async_update_data now (usage_data c)) as [u|]; [|discriminate].
    cbn [mbind option_bind usage_data] in E. injection E as <- <-.
    cbn [usage_data].
    destruct Hin as [<-|[<-|[<-|[<-|Hin]]]]; try discriminate.
    apply in_flat_map in Hin as (model & Hmodel & Hin).
    apply model_sensors_model in Hin. rewrite Hin in Hsn. injection Hsn as <-.
    apply in_map_iff in Hmodel as ([k st] & <- & Hk).
    apply list_elem_of_In, elem_of_map_to_list in Hk.
    apply elem_of_dom. exists st. exact Hk.
Qed.

Lemma C8_keys_and_reads_witness :
  (forall name, sensor_model (ModelTokenSensor "model-x" "input") = Some name ->
                name ∈ dom (models (usage_data (mkCoordinator scenario_b_store true)))) /\
  snd (native_value (ModelTokenSensor "model-x" "input")
         (mkCoordinator scenario_b_store true))
  = mkCoordinator scenario_b_store true.
Proof.
  assert (H : forall name,
             sensor_model (ModelTokenSensor "model-x" "input") = Some name ->
             name ∈ dom (models (usage_data (mkCoordinator scenario_b_store true)))).
  { intros name [= <-]. apply elem_of_dom. eexists. vm_compute. reflexivity. }
  split; [exact H|].
  destruct C8_keys_and_reads as (_ & _ & Hread & _).
  exact (Hread _ _ H).
Defined.

(** C8 as stated fails: the scheduled refresh at 2024-02-01T00:00:01 on the
    store of Scenario B, whose monthly window started in January, resets
    [monthly_requests] and moves [last_reset_monthly], with no report in
    between (Scenario C). *)
Lemma C8_scheduled_refresh_changes_store :
  exists u',
    _async_update_data (mkdatetime 2024 2 1 0 0 1 0) scenario_b_store = Some u' /\
    monthly_requests scenario_b_store = 2 /\ monthly_requests u' = 0 /\
    last_reset_monthly u' = mkdatetime 2024 2 1 0 0 0 0 /\
    u' <> scenario_b_store.
Proof.
  eexists. split; [vm_compute; reflexivity|].
  split; [reflexivity|]. split; [reflexivity|]. split; [reflexivity|].
  intros H. apply (f_equal monthly_requests) in H. discriminate.
Qed.

(** ** Further properties of the period starts *)

Lemma ymd2ord_inj y1 m1 d1 y2 m2 d2 :
  valid_date y1 m1 d1 -> valid_date y2 m2 d2 ->
  _ymd2ord y1 m1 d1 = _ymd2ord y2 m2 d2 -> y1 = y2 /\ m1 = m2 /\ d1 = d2.
Proof.
  intros H1 H2 E.
  destruct (Z.lt_trichotomy y1 y2) as [Hy|[Hy|Hy]].
  - pose proof (ymd2ord_year_lt _ _ _ _ _ _ H1 H2 Hy). lia.
  - subst y2. unfold _ymd2ord in E.
    destruct (Z.lt_trichotomy m1 m2) as [Hm|[Hm|Hm]].
    + pose proof (day_of_year_lt _ _ _ _ _ H1 H2 Hm). lia.
    + subst m2. repeat split; lia.
    + pose proof (day_of_year_lt _ _ _ _ _ H2 H1 Hm). lia.
  - pose proof (ymd2ord_year_lt _ _ _ _ _ _ H2 H1 Hy). lia.
Qed.

Lemma ord2ymd_ymd2ord y m d :
  valid_date y m d -> 1 <= _ymd2ord y m d -> _ord2ymd (_ymd2ord y m d) = (y, m, d).
Proof.
  intros Hv Hn. destruct (_ord2ymd (_ymd2ord y m d)) as [[y' m'] d'] eqn:E.
  apply ord2ymd_spec in E; [|exact Hn]. destruct E as [Hv' E].
  apply ymd2ord_inj in E; [|assumption..]. destruct E as (-> & -> & ->). reflexivity.
Qed.

Lemma datetime_add_zero d :
  valid_datetime d -> datetime_add d (mktimedelta 0 0 0) = Some d.
Proof.
  intros Hv. pose proof (toordinal_bounds _ Hv) as Ho.
  destruct (datetime_add_whole_days d 0 Hv ltac:(lia))
    as (r & E & Vr & Or & Hh & Hmi & Hs & Hus).
  rewrite E. f_equal.
  assert (Hd : year r = year d /\ month r = month d /\ day r = day d).
  { apply ymd2ord_inj; [apply valid_datetime_date; assumption..|].
    unfold toordinal in Or. lia. }
  destruct r, d. cbn in *. destruct Hd as (-> & -> & ->). congruence.
Qed.

Lemma datetime_add_weeks_inv d k r :
  valid_datetime d -> datetime_add d (timedelta_weeks k) = Some r ->
  valid_datetime r /\ toordinal r = toordinal d + 7 * k /\
  stamp r = stamp d + 7 * k * DAY_US.
Proof.
  intros Hv E. rewrite timedelta_weeks_eq in E.
  destruct (Z_lt_le_dec 0 (toordinal d + 7 * k)) as [Hlo|Hlo];
    [destruct (Z_le_gt_dec (toordinal d + 7 * k) _MAXORDINAL) as [Hhi|Hhi]|].
  - destruct (datetime_add_whole_days d (7 * k) Hv ltac:(lia))
      as (r' & E' & Vr & Or & Hh & Hmi & Hs & Hus).
    rewrite E in E'. injection E' as <-. split; [exact Vr|]. split; [exact Or|].
    apply stamp_whole_days; assumption.
  - rewrite datetime_add_overflow in E by (assumption || lia). discriminate.
  - rewrite datetime_add_overflow in E by (assumption || lia). discriminate.
Qed.

Lemma stamp_replace_day1_time0 now :
  valid_datetime now ->
  stamp (replace_day1_time0 now) <= stamp (replace_time0 now).
Proof.
  intros (_ & _ & Hd & _). unfold stamp, replace_day1_time0, replace_time0, toordinal,
    _ymd2ord. cbn. lia.
Qed.

(** X1: the start of a period is its own period start: for each of the
    three tags, [get_period_start] applied to its result returns it. *)
Theorem X1_get_period_start_idempotent (now : datetime) :
  valid_datetime now ->
  forall tag s,
    tag = "daily" \/ tag = "weekly" \/ tag = "monthly" ->
    get_period_start tag now = Some s ->
    get_period_start tag s = Some s.
Proof.
  intros Hv tag s [-> | [-> | ->]] E.
  - injection E as <-. reflexivity.
  - destruct (get_period_start_weekly now Hv)
      as (w & E' & _ & Vw & _ & Hwd & Hh & Hmi & Hs & Hus).
    rewrite E in E'. injection E' as <-.
    assert (Hs0 : replace_time0 s = s).
    { destruct s. cbn in *. subst. reflexivity. }
    unfold get_period_start. cbn [String.eqb Ascii.eqb Bool.eqb]. cbv zeta.
    rewrite Hs0, Hwd. unfold datetime_sub. rewrite timedelta_neg_days.
    apply datetime_add_zero. exact Vw.
  - injection E as <-. reflexivity.
Qed.

Lemma X1_get_period_start_idempotent_witness :
  valid_datetime (mkdatetime 2024 1 18 10 30 15 250) /\
  get_period_start "weekly" (mkdatetime 2024 1 18 10 30 15 250)
    = Some (mkdatetime 2024 1 15 0 0 0 0) /\
  get_period_start "weekly" (mkdatetime 2024 1 15 0 0 0 0)
    = Some (mkdatetime 2024 1 15 0 0 0 0).
Proof.
  assert (Hv : valid_datetime (mkdatetime 2024 1 18 10 30 15 250)) by solve_concrete.
  assert (E : get_period_start "weekly" (mkdatetime 2024 1 18 10 30 15 250)
              = Some (mkdatetime 2024 1 15 0 0 0 0)) by (vm_compute; reflexivity).
  split; [exact Hv|]. split; [exact E|].
  exact (X1_get_period_start_idempotent _ Hv "weekly" _ (or_intror (or_introl eq_refl)) E).
Defined.

(** X2: every period start brackets the instant it was computed from: the
    daily start is not after [now] and [now] is before the daily start plus
    one day; the weekly start is not after the daily start and [now] is
    before the weekly start plus seven days; the monthly start is not
    after the daily start and lies in the year and month of [now]. *)
Theorem X2_period_start_brackets_now (now : datetime) :
  valid_datetime now ->
  exists sd sw sm,
    get_period_start "daily" now = Some sd /\
    get_period_start "weekly" now = Some sw /\
    get_period_start "monthly" now = Some sm /\
    datetime_ge now sd = true /\
    (forall e, datetime_add sd (timedelta_days 1) = Some e -> datetime_ge now e = false) /\
    datetime_ge sd sw = true /\
    (forall e, datetime_add sw (timedelta_weeks 1) = Some e -> datetime_ge now e = false) /\
    datetime_ge sd sm = true /\ year sm = year now /\ month sm = month now.
Proof.
  intros Hv.
  destruct (get_period_start_weekly now Hv) as (sw & Esw & _).
  destruct (stamp_week_start now sw Hv Esw) as (Vsw & Osw & Ssw1 & Ssw2).
  pose proof (stamp_replace_time0 now Hv) as [Sd1 Sd2].
  pose proof (valid_replace_time0 now Hv) as Vsd.
  pose proof (valid_replace_day1_time0 now Hv) as Vsm.
  pose proof (weekday_bounds now) as Hwd.
  exists (replace_time0 now), sw, (replace_day1_time0 now).
  split; [reflexivity|]. split; [exact Esw|]. split; [reflexivity|].
  split; [apply datetime_ge_stamp; assumption|]. split.
  { intros e E. destruct (datetime_add_days_inv _ _ _ Vsd E) as (Ve & _ & Se & _).
    apply datetime_ge_false_stamp; [assumption..|]. lia. }
  split.
  { apply datetime_ge_stamp; [assumption..|].
    destruct (get_period_start_weekly now Hv)
      as (w & E' & _ & _ & _ & _ & Hh & Hmi & Hs & Hus).
    rewrite Esw in E'. injection E' as <-.
    unfold stamp. rewrite Osw, Hh, Hmi, Hs, Hus.
    change (toordinal (replace_time0 now)) with (toordinal now). cbn. lia. }
  split.
  { intros e E. destruct (datetime_add_weeks_inv _ _ _ Vsw E) as (Ve & _ & Se).
    apply datetime_ge_false_stamp; [assumption..|]. lia. }
  split; [|split; reflexivity].
  apply datetime_ge_stamp; [assumption..|]. apply stamp_replace_day1_time0. exact Hv.
Qed.

Lemma X2_period_start_brackets_now_witness :
  valid_datetime (mkdatetime 2024 1 18 10 30 15 250) /\
  exists sd sw sm,
    get_period_start "daily" (mkdatetime 2024 1 18 10 30 15 250) = Some sd /\
    get_period_start "weekly" (mkdatetime 2024 1 18 10 30 15 250) = Some sw /\
    get_period_start "monthly" (mkdatetime 2024 1 18 10 30 15 250) = Some sm /\
    datetime_ge sd sw = true /\ datetime_ge sd sm = true.
Proof.
  assert (Hv : valid_datetime (mkdatetime 2024 1 18 10 30 15 250)) by solve_concrete.
  split; [exact Hv|].
  destruct (X2_period_start_brackets_now _ Hv)
    as (sd & sw & sm & Ed & Ew & Em & _ & _ & Hw & _ & Hm & _).
  exists sd, sw, sm. repeat (split; [assumption|]). exact Hm.
Defined.

Lemma stamp_midnight d :
  hour d = 0 -> minute d = 0 -> second d = 0 -> microsecond d = 0 ->
  stamp d = toordinal d * DAY_US.
Proof. unfold stamp, DAY_US. intros -> -> -> ->. lia. Qed.

Lemma valid_date_day1 d : valid_datetime d -> valid_date (year d) (month d) 1.
Proof. intros (_ & Hm & Hd & _). split; [exact Hm|lia]. Qed.

Lemma month_start_monotone a b :
  valid_datetime a -> valid_datetime b -> toordinal a <= toordinal b ->
  toordinal (replace_day1_time0 a) <= toordinal (replace_day1_time0 b).
Proof.
  intros Ha Hb Hle.
  pose proof (valid_datetime_date _ Ha) as Da.
  pose proof (valid_datetime_date _ Hb) as Db.
  pose proof (valid_date_day1 _ Ha) as Da1.
  pose proof (valid_date_day1 _ Hb) as Db1.
  unfold toordinal in *. cbn [replace_day1_time0 year month day].
  destruct (Z.lt_trichotomy (year a) (year b)) as [Hy|[Hy|Hy]].
  - pose proof (ymd2ord_year_lt _ _ _ _ _ _ Da1 Db1 Hy). lia.
  - rewrite Hy in *. unfold _ymd2ord in *.
    destruct (Z.lt_trichotomy (month a) (month b)) as [Hm|[Hm|Hm]].
    + pose proof (day_of_year_lt _ _ _ _ _ Da1 Db1 Hm). lia.
    + rewrite Hm. lia.
    + pose proof (day_of_year_lt _ _ _ _ _ Db Da Hm). lia.
  - pose proof (ymd2ord_year_lt _ _ _ _ _ _ Db Da Hy). lia.
Qed.

(** X3: period starts follow the clock: when [b] is not before [a], the
    daily, weekly and monthly start of [b] is not before that of [a]. *)
Theorem X3_period_start_monotone (a b : datetime) :
  valid_datetime a -> valid_datetime b -> datetime_ge b a = true ->
  forall tag sa sb,
    tag = "daily" \/ tag = "weekly" \/ tag = "monthly" ->
    get_period_start tag a = Some sa -> get_period_start tag b = Some sb ->
    datetime_ge sb sa = true.
Proof.
  intros Ha Hb Hge tag sa sb Htag Ea Eb.
  apply datetime_ge_stamp in Hge; [|assumption..].
  pose proof (stamp_le_toordinal _ _ Ha Hb Hge) as Ho.
  destruct Htag as [-> | [-> | ->]].
  - injection Ea as <-. injection Eb as <-.
    apply datetime_ge_stamp; [apply valid_replace_time0; assumption..|].
    rewrite !stamp_midnight by reflexivity.
    change (toordinal (replace_time0 a)) with (toordinal a).
    change (toordinal (replace_time0 b)) with (toordinal b). unfold DAY_US. lia.
  - destruct (get_period_start_weekly a Ha)
      as (wa & Ea' & _ & Va & Oa & _ & Ha1 & Ha2 & Ha3 & Ha4).
    destruct (get_period_start_weekly b Hb)
      as (wb & Eb' & _ & Vb & Ob & _ & Hb1 & Hb2 & Hb3 & Hb4).
    rewrite Ea in Ea'. injection Ea' as <-. rewrite Eb in Eb'. injection Eb' as <-.
    apply datetime_ge_stamp; [assumption..|].
    rewrite !stamp_midnight by assumption. rewrite Oa, Ob.
    unfold weekday, DAY_US. Z.div_mod_to_equations. lia.
  - injection Ea as <-. injection Eb as <-.
    apply datetime_ge_stamp; [apply valid_replace_day1_time0; assumption..|].
    rewrite !stamp_midnight by reflexivity.
    pose proof (month_start_monotone a b Ha Hb Ho). unfold DAY_US. lia.
Qed.

Lemma X3_period_start_monotone_witness :
  valid_datetime scenario_created /\ valid_datetime (mkdatetime 2024 2 25 10 0 0 0) /\
  datetime_ge (mkdatetime 2024 2 25 10 0 0 0) scenario_created = true /\
  datetime_ge (mkdatetime 2024 2 19 0 0 0 0) (mkdatetime 2024 1 15 0 0 0 0) = true.
Proof.
  assert (Ha : valid_datetime scenario_created) by solve_concrete.
  assert (Hb : valid_datetime (mkdatetime 2024 2 25 10 0 0 0)) by solve_concrete.
  split; [exact Ha|]. split; [exact Hb|]. split; [reflexivity|].
  exact (X3_period_start_monotone _ _ Ha Hb eq_refl "weekly" _ _
           (or_intror (or_introl eq_refl)) eq_refl eq_refl).
Defined.

(** ** The store and its windows *)

Lemma init_eq now :
  valid_datetime now ->
  exists sw, get_period_start "weekly" now = Some sw /\
    init now = Some (mkUsageData 0 0 0 0 (replace_time0 now) sw
                       (replace_day1_time0 now) ∅).
Proof.
  intros Hv. destruct (get_period_start_weekly now Hv) as (w & E & _).
  exists w. split; [exact E|]. unfold init.
  change (get_period_start "daily" now) with (Some (replace_time0 now)).
  change (get_period_start "monthly" now) with (Some (replace_day1_time0 now)).
  rewrite E. reflexivity.
Qed.

Lemma no_reset_due_fixpoint now u :
  no_reset_due now u -> _reset_if_needed now u = Some u.
Proof.
  intros (dd & dw & Edd & Edw & Fd & Fw & Fm). unfold _reset_if_needed.
  rewrite Edd. cbn [mbind option_bind]. rewrite Fd. cbn [mbind option_bind].
  rewrite Edw. cbn [mbind option_bind]. rewrite Fw. cbn [mbind option_bind].
  rewrite Fm, Z.eqb_refl. reflexivity.
Qed.

(** The window starts of a store bracket [now]. *)
Lemma windows_current_no_reset_due now u :
  valid_datetime now -> store_ok u ->
  stamp now < stamp (last_reset_daily u) + DAY_US ->
  stamp now < stamp (last_reset_weekly u) + 7 * DAY_US ->
  month (last_reset_monthly u) = month now ->
  no_reset_due now u.
Proof.
  intros Hnow Hu Sd Sw Hm.
  destruct (reset_if_needed_spec now u Hnow Hu)
    as (dd & dw & sw & u' & Edd & Edw & Vdd & Vdw & Sdd & Sdw & _).
  exists dd, dw. split; [exact Edd|]. split; [exact Edw|].
  split; [apply datetime_ge_false_stamp; [assumption..|lia]|].
  split; [apply datetime_ge_false_stamp; [assumption..|lia]|].
  symmetry. exact Hm.
Qed.

(** X4: a store is created reconciled: the rollover check at the instant of
    its creation returns it unchanged, with every counter at zero and no
    model entry. *)
Theorem X4_init_is_reconciled (now : datetime) :
  clock_ok now ->
  exists u0,
    init now = Some u0 /\ _reset_if_needed now u0 = Some u0 /\
    total_requests u0 = 0 /\ daily_requests u0 = 0 /\
    weekly_requests u0 = 0 /\ monthly_requests u0 = 0 /\ models u0 = ∅ /\
    get_period_start "daily" now = Some (last_reset_daily u0) /\
    get_period_start "weekly" now = Some (last_reset_weekly u0) /\
    get_period_start "monthly" now = Some (last_reset_monthly u0).
Proof.
  intros Hc. pose proof Hc as [Hv Hr].
  destruct (init_eq now Hv) as (sw & Esw & E).
  destruct (init_spec now Hc) as (u0 & E0 & Hu0 & _).
  rewrite E in E0. injection E0 as <-.
  eexists. split; [exact E|].
  split; [|repeat (split; [reflexivity|]); split; [exact Esw|reflexivity]].
  apply no_reset_due_fixpoint.
  destruct (stamp_week_start now sw Hv Esw) as (_ & _ & _ & Ssw).
  pose proof (stamp_replace_time0 now Hv) as [_ Ssd].
  apply windows_current_no_reset_due; try assumption; reflexivity.
Qed.

Lemma X4_init_is_reconciled_witness :
  clock_ok scenario_created /\
  exists u0, init scenario_created = Some u0 /\
    _reset_if_needed scenario_created u0 = Some u0.
Proof.
  assert (Hc : clock_ok scenario_created) by solve_concrete.
  split; [exact Hc|].
  destruct (X4_init_is_reconciled _ Hc) as (u0 & E & E' & _).
  exists u0. split; [exact E|exact E'].
Defined.

Lemma reset_if_needed_windows (now : datetime) (u : UsageData) :
  valid_datetime now -> store_ok u ->
  datetime_ge now (last_reset_daily u) = true ->
  datetime_ge now (last_reset_weekly u) = true ->
  datetime_ge now (last_reset_monthly u) = true ->
  exists u',
    _reset_if_needed now u = Some u' /\
    datetime_ge now (last_reset_daily u') = true /\
    (forall e, datetime_add (last_reset_daily u') (timedelta_days 1) = Some e ->
               datetime_ge now e = false) /\
    datetime_ge now (last_reset_weekly u') = true /\
    (forall e, datetime_add (last_reset_weekly u') (timedelta_weeks 1) = Some e ->
               datetime_ge now e = false) /\
    datetime_ge now (last_reset_monthly u') = true /\
    month (last_reset_monthly u') = month now.
Proof.
  intros Hnow Hu Gd Gw Gm.
  destruct (reset_if_needed_spec now u Hnow Hu)
    as (dd & dw & sw & u' & Edd & Edw & Vdd & Vdw & Sdd & Sdw & Esw & E & Hafter).
  destruct Hafter as (_ & _ & _ & _ & Hld & Hlw & Hlm & _).
  destruct (stamp_week_start now sw Hnow Esw) as (Vsw & _ & Ssw1 & Ssw2).
  pose proof (stamp_replace_time0 now Hnow) as [Ssd1 Ssd2].
  pose proof (valid_replace_time0 now Hnow) as Vsd.
  pose proof (valid_replace_day1_time0 now Hnow) as Vsm.
  pose proof (stamp_replace_day1_time0 now Hnow) as Ssm.
  exists u'. split; [exact E|]. rewrite Hld, Hlw, Hlm.
  split; [|split; [|split; [|split; [|split]]]].
  - destruct (datetime_ge now dd); [apply datetime_ge_stamp; assumption|exact Gd].
  - intros e Ee. destruct (datetime_ge now dd) eqn:Fd.
    + destruct (datetime_add_days_inv _ _ _ Vsd Ee) as (Ve & _ & Se & _).
      apply datetime_ge_false_stamp; [assumption..|lia].
    + rewrite Edd in Ee. injection Ee as <-. exact Fd.
  - destruct (datetime_ge now dw); [apply datetime_ge_stamp; assumption|exact Gw].
  - intros e Ee. destruct (datetime_ge now dw) eqn:Fw.
    + destruct (datetime_add_weeks_inv _ _ _ Vsw Ee) as (Ve & _ & Se).
      apply datetime_ge_false_stamp; [assumption..|lia].
    + rewrite Edw in Ee. injection Ee as <-. exact Fw.
  - destruct (negb (month now =? month (last_reset_monthly u)));
      [apply datetime_ge_stamp; [assumption..|lia]|exact Gm].
  - destruct (Z.eqb_spec (month now) (month (last_reset_monthly u))); cbn [negb];
      [congruence|reflexivity].
Qed.

(** X5: the rollover check restores the window invariant: on a store whose
    three windows did not start after [now], the check returns a store
    whose daily window contains [now] (it started not after [now], and
    [now] is before its start plus one day), whose weekly window contains
    [now], and whose monthly window started not after [now] in a month of
    the number of [now]. *)
Theorem X5_check_makes_windows_current (now : datetime) (u : UsageData) :
  valid_datetime now -> store_ok u ->
  datetime_ge now (last_reset_daily u) = true ->
  datetime_ge now (last_reset_weekly u) = true ->
  datetime_ge now (last_reset_monthly u) = true ->
  exists u',
    _reset_if_needed now u = Some u' /\
    datetime_ge now (last_reset_daily u') = true /\
    (forall e, datetime_add (last_reset_daily u') (timedelta_days 1) = Some e ->
               datetime_ge now e = false) /\
    datetime_ge now (last_reset_weekly u') = true /\
    (forall e, datetime_add (last_reset_weekly u') (timedelta_weeks 1) = Some e ->
               datetime_ge now e = false) /\
    datetime_ge now (last_reset_monthly u') = true /\
    month (last_reset_monthly u') = month now.
Proof. apply reset_if_needed_windows. Qed.

Lemma X5_check_makes_windows_current_witness :
  valid_datetime (mkdatetime 2024 2 25 10 0 0 0) /\ store_ok scenario_b_store /\
  exists u',
    _reset_if_needed (mkdatetime 2024 2 25 10 0 0 0) scenario_b_store = Some u' /\
    datetime_ge (mkdatetime 2024 2 25 10 0 0 0) (last_reset_weekly u') = true /\
    month (last_reset_monthly u') = 2.
Proof.
  assert (Hv : valid_datetime (mkdatetime 2024 2 25 10 0 0 0)) by solve_concrete.
  assert (Hu : store_ok scenario_b_store) by solve_concrete.
  split; [exact Hv|]. split; [exact Hu|].
  destruct (X5_check_makes_windows_current _ _ Hv Hu eq_refl eq_refl eq_refl)
    as (u' & E & _ & _ & Hw & _ & _ & Hm).
  exists u'. split; [exact E|]. split; [exact Hw|exact Hm].
Defined.

(** ** Invariants of reports interleaved with refreshes *)

Lemma reset_if_needed_inv now u u' :
  _reset_if_needed now u = Some u' ->
  exists fd fw fm sd sw sm, store_after fd fw fm sd sw sm u u'.
Proof.
  unfold _reset_if_needed.
  change (get_period_start "daily" now) with (Some (replace_time0 now)).
  change (get_period_start "monthly" now) with (Some (replace_day1_time0 now)).
  destruct (datetime_add (last_reset_daily u) (timedelta_days 1)) as [dd|];
    [|discriminate].
  cbn [mbind option_bind].
  destruct (datetime_ge now dd) eqn:Fd; cbn [mbind option_bind last_reset_weekly];
    (destruct (datetime_add (last_reset_weekly u) (timedelta_weeks 1)) as [dw|];
     [|discriminate]); cbn [mbind option_bind];
    destruct (datetime_ge now dw) eqn:Fw;
    try (destruct (get_period_start "weekly" now) as [sw|]; [|discriminate]);
    cbn [mbind option_bind last_reset_monthly];
    destruct (negb (month now =? month (last_reset_monthly u))) eqn:Fm;
    cbn [mbind option_bind]; intros E; injection E as <-;
    match type of Fd with _ = ?a =>
      match type of Fw with _ = ?b =>
        match type of Fm with _ = ?c => exists a, b, c end end end;
    exists (replace_time0 now);
    first [exists sw | exists now]; exists (replace_day1_time0 now).
  all: unfold store_after; cbn [total_requests daily_requests weekly_requests
         monthly_requests last_reset_daily last_reset_weekly last_reset_monthly models].
  all: repeat (split; [rewrite ?(dom_fmap_L (D:=gset string)); reflexivity|]).
  all: intros name st Hst; rewrite ?lookup_fmap, Hst; cbn [fmap option_fmap option_map];
    eexists; (split; [reflexivity|]); repeat split.
Qed.

Lemma store_after_entries (P : ModelStats -> Prop) fd fw fm sd sw sm u u' :
  (forall st st', entry_after fd fw fm st st' -> P st -> P st') ->
  store_after fd fw fm sd sw sm u u' ->
  (forall name st, models u !! name = Some st -> P st) ->
  forall name st', models u' !! name = Some st' -> P st'.
Proof.
  intros HP (_ & _ & _ & _ & _ & _ & _ & Hdom & Hm) Hu name st' Hst'.
  assert (Hin : name ∈ dom (models u)) by (rewrite <- Hdom; apply elem_of_dom; eauto).
  apply elem_of_dom in Hin as [st Hst].
  destruct (Hm name st Hst) as (st'' & E & He).
  assert (st'' = st') as -> by congruence.
  apply (HP st st' He), (Hu name st Hst).
Qed.

Lemma store_plus_entries (P : ModelStats -> Prop) model i o t u u' :
  P (mkModelStats 0 0 0 0 0 0 0 0 0 0 0 0) ->
  (forall st st', entry_plus i o t st st' -> P st -> P st') ->
  store_plus model i o t u u' ->
  (forall name st, models u !! name = Some st -> P st) ->
  forall name st', models u' !! name = Some st' -> P st'.
Proof.
  intros P0 HP (_ & _ & _ & _ & _ & _ & _ & (st & st1 & Hst & Hst1 & He) & _ & Hother)
    Hu name st' Hst'.
  destruct (String.eqb_spec name model) as [->|Hne].
  - assert (st1 = st') as -> by congruence.
    apply (HP st st' He). destruct Hst as [Hst|[_ ->]]; [apply (Hu model st Hst)|exact P0].
  - rewrite (Hother name Hne) in Hst'. apply (Hu name st' Hst').
Qed.

Lemma init_inv t0 u0 :
  init t0 = Some u0 ->
  total_requests u0 = 0 /\ daily_requests u0 = 0 /\ weekly_requests u0 = 0 /\
  monthly_requests u0 = 0 /\ models u0 = ∅.
Proof.
  unfold init.
  change (get_period_start "daily" t0) with (Some (replace_time0 t0)).
  change (get_period_start "monthly" t0) with (Some (replace_day1_time0 t0)).
  destruct (get_period_start "weekly" t0); [|discriminate].
  cbn [mbind option_bind]. intros E. injection E as <-. repeat split.
Qed.

Lemma run_event_inv e u u' :
  run_event e u = Some u' ->
  match e with
  | Report model result now =>
    match reported result with
    | None => u' = u
    | Some (i, o, t) =>
      exists u1 fd fw fm sd sw sm,
        store_after fd fw fm sd sw sm u u1 /\ store_plus model i o t u1 u'
    end
  | Poll now => exists fd fw fm sd sw sm, store_after fd fw fm sd sw sm u u'
  end.
Proof.
  destruct e as [model result now|now]; cbn [run_event]; intros E.
  - apply update_usage_stats_inv in E. destruct (reported result) as [[[i o] t]|];
      [|exact E].
    destruct E as (u1 & E1 & Hp). apply reset_if_needed_inv in E1.
    destruct E1 as (fd & fw & fm & sd & sw & sm & Ha).
    exists u1, fd, fw, fm, sd, sw, sm. split; assumption.
  - exact (reset_if_needed_inv now u u' E).
Qed.

Lemma entry_after_bounded fd fw fm st st' :
  entry_after fd fw fm st st' -> entry_bounded st -> entry_bounded st'.
Proof.
  unfold entry_after, entry_bounded.
  intros (-> & -> & -> & -> & -> & -> & -> & -> & -> & -> & -> & ->) H.
  destruct fd, fw, fm; lia.
Qed.

Lemma entry_plus_bounded i o t st st' :
  0 <= i -> 0 <= o -> 0 <= t ->
  entry_plus i o t st st' -> entry_bounded st -> entry_bounded st'.
Proof.
  unfold entry_plus, entry_bounded.
  intros Hi Ho Ht (-> & -> & -> & -> & -> & -> & -> & -> & -> & -> & -> & ->) H. lia.
Qed.

Lemma store_after_bounded fd fw fm sd sw sm u u' :
  store_after fd fw fm sd sw sm u u' -> counters_bounded u -> counters_bounded u'.
Proof.
  intros Ha (Hd & Hw & Hm & He).
  pose proof Ha as (Et & Ed & Ew & Em & _).
  split; [|split; [|split]].
  - rewrite Et, Ed. destruct fd; lia.
  - rewrite Et, Ew. destruct fw; lia.
  - rewrite Et, Em. destruct fm; lia.
  - apply (store_after_entries entry_bounded fd fw fm sd sw sm u u'); try assumption.
    apply entry_after_bounded.
Qed.

Lemma store_plus_bounded model i o t u u' :
  0 <= i -> 0 <= o -> 0 <= t ->
  store_plus model i o t u u' -> counters_bounded u -> counters_bounded u'.
Proof.
  intros Hi Ho Ht Hp (Hd & Hw & Hm & He).
  pose proof Hp as (Et & Ed & Ew & Em & _).
  split; [lia|]. split; [lia|]. split; [lia|].
  apply (store_plus_entries entry_bounded model i o t u u'); try assumption.
  - unfold entry_bounded. cbn. lia.
  - intros st st'. apply entry_plus_bounded; assumption.
Qed.

Lemma entry_after_consistent fd fw fm st st' :
  entry_after fd fw fm st st' -> entry_consistent st -> entry_consistent st'.
Proof.
  unfold entry_after, entry_consistent.
  intros (-> & -> & -> & -> & -> & -> & -> & -> & -> & -> & -> & ->) H.
  destruct fd, fw, fm; lia.
Qed.

Lemma entry_plus_consistent i o t st st' :
  t = i + o -> entry_plus i o t st st' -> entry_consistent st -> entry_consistent st'.
Proof.
  unfold entry_plus, entry_consistent.
  intros Ht (-> & -> & -> & -> & -> & -> & -> & -> & -> & -> & -> & ->) H. lia.
Qed.

(** X6: in every store reached from a fresh one by reports of non-negative
    counts and scheduled refreshes, in any order and at any clock readings,
    each periodic request counter lies between 0 and [total_requests], and
    each periodic token field of each model lies between 0 and the lifetime
    field of the same kind. *)
Theorem X6_periodic_counters_bounded (t0 : datetime) (events : list Event)
    (u0 u : UsageData) :
  init t0 = Some u0 ->
  Forall event_nonneg events ->
  run_events events u0 = Some u ->
  counters_bounded u.
Proof.
  intros E0 Hall E.
  assert (H0 : counters_bounded u0).
  { destruct (init_inv _ _ E0) as (Et & Ed & Ew & Em & Hm).
    unfold counters_bounded. rewrite Et, Ed, Ew, Em.
    repeat (split; [lia|]). intros name st. rewrite Hm, lookup_empty. discriminate. }
  clear E0. revert u0 H0 E.
  induction Hall as [|e rest He _ IH]; intros u0 H0 E.
  - injection E as <-. exact H0.
  - cbn [run_events] in E.
    destruct (run_event e u0) as [u1|] eqn:E1; [|discriminate].
    cbn [mbind option_bind] in E. apply (IH u1); [|exact E].
    apply run_event_inv in E1. destruct e as [model result now|now].
    + cbn [event_nonneg] in He. destruct (reported result) as [[[i o] t]|].
      * destruct (He i o t eq_refl) as (Hi & Ho & Ht).
        destruct E1 as (u2 & fd & fw & fm & sd & sw & sm & Ha & Hp).
        apply (store_plus_bounded _ _ _ _ _ _ Hi Ho Ht Hp).
        apply (store_after_bounded _ _ _ _ _ _ _ _ Ha H0).
      * subst u1. exact H0.
    + destruct E1 as (fd & fw & fm & sd & sw & sm & Ha).
      apply (store_after_bounded _ _ _ _ _ _ _ _ Ha H0).
Qed.

(** X7: when the total of every report is the sum of its input and output
    counts, then in every store reached from a fresh one by reports and
    scheduled refreshes the total token field of each model is the sum of
    its input and output fields, for the lifetime and for each of the three
    periods. *)
Theorem X7_totals_stay_consistent (t0 : datetime) (events : list Event)
    (u0 u : UsageData) :
  init t0 = Some u0 ->
  Forall event_consistent events ->
  run_events events u0 = Some u ->
  tokens_consistent u.
Proof.
  intros E0 Hall E.
  assert (H0 : tokens_consistent u0).
  { destruct (init_inv _ _ E0) as (_ & _ & _ & _ & Hm).
    intros name st. rewrite Hm, lookup_empty. discriminate. }
  clear E0. revert u0 H0 E.
  induction Hall as [|e rest He _ IH]; intros u0 H0 E.
  - injection E as <-. exact H0.
  - cbn [run_events] in E.
    destruct (run_event e u0) as [u1|] eqn:E1; [|discriminate].
    cbn [mbind option_bind] in E. apply (IH u1); [|exact E].
    apply run_event_inv in E1. destruct e as [model result now|now].
    + cbn [event_consistent] in He. destruct (reported result) as [[[i o] t]|].
      * pose proof (He i o t eq_refl) as Ht.
        destruct E1 as (u2 & fd & fw & fm & sd & sw & sm & Ha & Hp).
        unfold tokens_consistent.
        apply (store_plus_entries entry_consistent model i o t u2 u1);
          [unfold entry_consistent; cbn; lia
          |intros st st'; apply entry_plus_consistent; exact Ht
          |exact Hp|].
        apply (store_after_entries entry_consistent fd fw fm sd sw sm u0 u2);
          [apply entry_after_consistent|exact Ha|exact H0].
      * subst u1. exact H0.
    + destruct E1 as (fd & fw & fm & sd & sw & sm & Ha).
      unfold tokens_consistent.
      apply (store_after_entries entry_consistent fd fw fm sd sw sm u0 u1);
        [apply entry_after_consistent|exact Ha|exact H0].
Qed.

Lemma X6_periodic_counters_bounded_witness :
  init scenario_created
    = Some (mkUsageData 0 0 0 0 (mkdatetime 2024 1 15 0 0 0 0)
              (mkdatetime 2024 1 15 0 0 0 0) (mkdatetime 2024 1 1 0 0 0 0) ∅) /\
  Forall event_nonneg scenario_events /\
  run_events scenario_events
    (mkUsageData 0 0 0 0 (mkdatetime 2024 1 15 0 0 0 0)
       (mkdatetime 2024 1 15 0 0 0 0) (mkdatetime 2024 1 1 0 0 0 0) ∅)
    = Some scenario_b_store /\
  counters_bounded scenario_b_store.
Proof.
  assert (E0 : init scenario_created
    = Some (mkUsageData 0 0 0 0 (mkdatetime 2024 1 15 0 0 0 0)
              (mkdatetime 2024 1 15 0 0 0 0) (mkdatetime 2024 1 1 0 0 0 0) ∅))
    by (vm_compute; reflexivity).
  assert (Hall : Forall event_nonneg scenario_events).
  { constructor; [intros i o t E; injection E as <- <- <-; lia|].
    constructor; [exact I|].
    constructor; [intros i o t E; injection E as <- <- <-; lia|]. constructor. }
  assert (E : run_events scenario_events
    (mkUsageData 0 0 0 0 (mkdatetime 2024 1 15 0 0 0 0)
       (mkdatetime 2024 1 15 0 0 0 0) (mkdatetime 2024 1 1 0 0 0 0) ∅)
    = Some scenario_b_store) by (vm_compute; reflexivity).
  split; [exact E0|]. split; [exact Hall|]. split; [exact E|].
  exact (X6_periodic_counters_bounded _ _ _ _ E0 Hall E).
Defined.

Lemma X7_totals_stay_consistent_witness :
  init scenario_created
    = Some (mkUsageData 0 0 0 0 (mkdatetime 2024 1 15 0 0 0 0)
              (mkdatetime 2024 1 15 0 0 0 0) (mkdatetime 2024 1 1 0 0 0 0) ∅) /\
  Forall event_consistent scenario_events /\
  run_events scenario_events
    (mkUsageData 0 0 0 0 (mkdatetime 2024 1 15 0 0 0 0)
       (mkdatetime 2024 1 15 0 0 0 0) (mkdatetime 2024 1 1 0 0 0 0) ∅)
    = Some scenario_b_store /\
  tokens_consistent scenario_b_store.
Proof.
  assert (E0 : init scenario_created
    = Some (mkUsageData 0 0 0 0 (mkdatetime 2024 1 15 0 0 0 0)
              (mkdatetime 2024 1 15 0 0 0 0) (mkdatetime 2024 1 1 0 0 0 0) ∅))
    by (vm_compute; reflexivity).
  assert (Hall : Forall event_consistent scenario_events).
  { constructor; [intros i o t E; injection E as <- <- <-; lia|].
    constructor; [exact I|].
    constructor; [intros i o t E; injection E as <- <- <-; lia|]. constructor. }
  assert (E : run_events scenario_events
    (mkUsageData 0 0 0 0 (mkdatetime 2024 1 15 0 0 0 0)
       (mkdatetime 2024 1 15 0 0 0 0) (mkdatetime 2024 1 1 0 0 0 0) ∅)
    = Some scenario_b_store) by (vm_compute; reflexivity).
  split; [exact E0|]. split; [exact Hall|]. split; [exact E|].
  exact (X7_totals_stay_consistent _ _ _ _ E0 Hall E).
Defined.

(** ** Reports inside the current windows *)

Lemma no_reset_due_same_windows now u u' :
  last_reset_daily u' = last_reset_daily u ->
  last_reset_weekly u' = last_reset_weekly u ->
  last_reset_monthly u' = last_reset_monthly u ->
  no_reset_due now u -> no_reset_due now u'.
Proof. unfold no_reset_due. intros -> -> ->. exact (fun H => H). Qed.

Lemma entry_of_plus model i o t name u u' :
  store_plus model i o t u u' ->
  if String.eqb model name then entry_plus i o t (entry_of name u) (entry_of name u')
  else entry_of name u' = entry_of name u.
Proof.
  intros (_ & _ & _ & _ & _ & _ & _ & (st & st' & Hst & Hst' & Hp) & _ & Hother).
  unfold entry_of. destruct (String.eqb_spec model name) as [<-|Hne].
  - rewrite Hst'. destruct Hst as [->|[-> ->]]; exact Hp.
  - rewrite (Hother name) by congruence. reflexivity.
Qed.

Lemma entry_plus_zero st : entry_plus 0 0 0 st st.
Proof. unfold entry_plus. repeat split; lia. Qed.

Lemma entry_plus_trans i1 o1 t1 i2 o2 t2 a b c :
  entry_plus i1 o1 t1 a b -> entry_plus i2 o2 t2 b c ->
  entry_plus (i1 + i2) (o1 + o2) (t1 + t2) a c.
Proof.
  unfold entry_plus.
  intros (H1 & H2 & H3 & H4 & H5 & H6 & H7 & H8 & H9 & H10 & H11 & H12)
    (-> & -> & -> & -> & -> & -> & -> & -> & -> & -> & -> & ->).
  rewrite H1, H2, H3, H4, H5, H6, H7, H8, H9, H10, H11, H12. repeat split; lia.
Qed.

Lemma entry_plus_functional i o t st a b :
  entry_plus i o t st a -> entry_plus i o t st b -> a = b.
Proof.
  unfold entry_plus. destruct a, b. cbn.
  intros (-> & -> & -> & -> & -> & -> & -> & -> & -> & -> & -> & ->)
    (-> & -> & -> & -> & -> & -> & -> & -> & -> & -> & -> & ->). reflexivity.
Qed.

Lemma record_all_quiet (calls : list Call) (u : UsageData) :
  Forall (fun c => no_reset_due (call_now c) u /\
                   is_Some (usage_metadata (call_result c))) calls ->
  exists u',
    record_all calls u = Some u' /\
    total_requests u' = total_requests u + Z.of_nat (length calls) /\
    daily_requests u' = daily_requests u + Z.of_nat (length calls) /\
    weekly_requests u' = weekly_requests u + Z.of_nat (length calls) /\
    monthly_requests u' = monthly_requests u + Z.of_nat (length calls) /\
    last_reset_daily u' = last_reset_daily u /\
    last_reset_weekly u' = last_reset_weekly u /\
    last_reset_monthly u' = last_reset_monthly u /\
    dom (models u') = list_to_set (map call_model calls) ∪ dom (models u) /\
    forall name,
      let '(i, o, t) := reported_sum name calls in
      entry_plus i o t (entry_of name u) (entry_of name u').
Proof.
  revert u. induction calls as [|c rest IH]; intros u Hall.
  - exists u. split; [reflexivity|]. cbn [length Z.of_nat].
    do 7 (split; [lia || reflexivity|]). split; [cbn; set_solver|].
    intros name. apply entry_plus_zero.
  - inversion Hall as [|? ? [Hq [meta Hmeta]] Hrest]; subst.
    destruct c as [model [m] now].
    cbn [call_now call_model call_result usage_metadata] in *. subst m.
    pose proof (no_reset_due_fixpoint now u Hq) as E1.
    destruct (update_after_reset model meta now u u E1) as (u2 & E2 & Hp).
    pose proof Hp as (Pt & Pd & Pw & Pm & Pld & Plw & Plm & _ & Pdom & _).
    destruct (IH u2) as (u' & E' & Ht & Hd & Hw & Hm & Hld & Hlw & Hlm & Hdom & Hent).
    { eapply Forall_impl; [exact Hrest|]. intros c [Hc Hs]. split; [|exact Hs].
      apply (no_reset_due_same_windows _ u u2); assumption. }
    exists u'. cbn [record_all call_model call_result call_now].
    rewrite E2. cbn [mbind option_bind]. split; [exact E'|].
    cbn [length]. rewrite Nat2Z.inj_succ.
    split; [lia|]. split; [lia|]. split; [lia|]. split; [lia|].
    split; [congruence|]. split; [congruence|]. split; [congruence|].
    split; [rewrite Hdom, Pdom; cbn [map call_model list_to_set]; set_solver|].
    intros name. specialize (Hent name).
    pose proof (entry_of_plus model _ _ _ name u u2 Hp) as Hfirst.
    cbn [reported_sum call_result call_model reported usage_metadata].
    destruct (reported_sum name rest) as [[si so] st].
    destruct (String.eqb model name).
    + apply (entry_plus_trans _ _ _ _ _ _ _ _ _ Hfirst Hent).
    + rewrite Hfirst in Hent. exact Hent.
Qed.

(** X8: reports that all arrive while no reset is due accumulate in every
    scope: each of the four request counters grows by the number of
    reports, the window starts stay, and each of the twelve token fields of
    a model grows by the sum of the counts reported for that model (from
    zero for a model without entry). *)
Theorem X8_reports_within_windows_accumulate (calls : list Call) (u : UsageData) :
  Forall (fun c => no_reset_due (call_now c) u /\
                   is_Some (usage_metadata (call_result c))) calls ->
  exists u',
    record_all calls u = Some u' /\
    total_requests u' = total_requests u + Z.of_nat (length calls) /\
    daily_requests u' = daily_requests u + Z.of_nat (length calls) /\
    weekly_requests u' = weekly_requests u + Z.of_nat (length calls) /\
    monthly_requests u' = monthly_requests u + Z.of_nat (length calls) /\
    last_reset_daily u' = last_reset_daily u /\
    last_reset_weekly u' = last_reset_weekly u /\
    last_reset_monthly u' = last_reset_monthly u /\
    forall name,
      let '(i, o, t) := reported_sum name calls in
      entry_plus i o t (entry_of name u) (entry_of name u').
Proof.
  intros Hall.
  destruct (record_all_quiet calls u Hall)
    as (u' & E & Ht & Hd & Hw & Hm & Hld & Hlw & Hlm & _ & Hent).
  exists u'. do 8 (split; [assumption|]). exact Hent.
Qed.

Lemma X8_reports_within_windows_accumulate_witness :
  Forall (fun c => no_reset_due (call_now c) scenario_b_store /\
                   is_Some (usage_metadata (call_result c)))
    [mkCall "model-x" (usage 1 2 3) scenario_b_now;
     mkCall "model-y" (usage 4 5 9) (mkdatetime 2024 1 16 23 59 59 0)] /\
  exists u',
    record_all [mkCall "model-x" (usage 1 2 3) scenario_b_now;
                mkCall "model-y" (usage 4 5 9) (mkdatetime 2024 1 16 23 59 59 0)]
      scenario_b_store = Some u' /\
    daily_requests u' = 3.
Proof.
  assert (Hall : Forall (fun c => no_reset_due (call_now c) scenario_b_store /\
                   is_Some (usage_metadata (call_result c)))
    [mkCall "model-x" (usage 1 2 3) scenario_b_now;
     mkCall "model-y" (usage 4 5 9) (mkdatetime 2024 1 16 23 59 59 0)]).
  { constructor; [|constructor; [|constructor]].
    all: split; [|eexists; reflexivity].
    all: eexists; eexists; split; [vm_compute; reflexivity|];
      split; [vm_compute; reflexivity|]; repeat split. }
  split; [exact Hall|].
  destruct (X8_reports_within_windows_accumulate _ _ Hall) as (u' & E & _ & Hd & _).
  exists u'. split; [exact E|exact Hd].
Defined.

(** ** Sensors *)

Lemma lifetime_of_entry_of name u :
  lifetime_of name u
  = (input_tokens (entry_of name u), output_tokens (entry_of name u),
     total_tokens (entry_of name u)).
Proof. unfold lifetime_of, entry_of. destruct (models u !! name); reflexivity. Qed.

Lemma native_value_model_token model key c st :
  data_bound c = true -> models (usage_data c) !! model = Some st ->
  native_value (ModelTokenSensor model key) c = (model_get (key ++ "_tokens") st, c).
Proof.
  intros Hb Hst. unfold native_value, defaultdict_getitem. rewrite Hb, Hst.
  destruct c as [[] b]. cbn in *. subst b. reflexivity.
Qed.

Lemma native_value_periodic_model_token model period key c st :
  data_bound c = true -> models (usage_data c) !! model = Some st ->
  native_value (PeriodicModelTokenSensor model period key) c
  = (model_get (period ++ "_" ++ key ++ "_tokens") st, c).
Proof.
  intros Hb Hst. unfold native_value, defaultdict_getitem. rewrite Hb, Hst.
  destruct c as [[] b]. cbn in *. subst b. reflexivity.
Qed.

(** X9: a read after a report sees it: once [data] is bound, after a
    report with usage metadata for a model the total-calls sensor reads the
    former [total_requests] plus one, and the three lifetime token sensors
    of the model read its former lifetime counts (zero for a model without
    entry) plus the reported counts; the reads leave the store as it is. *)
Theorem X9_report_then_read (model : string) (r : Result) (now : datetime)
    (c c' : Coordinator) (i o t : Z) :
  data_bound c = true -> reported r = Some (i, o, t) ->
  coordinator_update_usage_stats model r now c = Some c' ->
  native_value TotalCallsSensor c'
    = (Some (total_requests (usage_data c) + 1), c') /\
  native_value (ModelTokenSensor model "input") c'
    = (Some (input_tokens (entry_of model (usage_data c)) + i), c') /\
  native_value (ModelTokenSensor model "output") c'
    = (Some (output_tokens (entry_of model (usage_data c)) + o), c') /\
  native_value (ModelTokenSensor model "total") c'
    = (Some (total_tokens (entry_of model (usage_data c)) + t), c').
Proof.
  intros Hb Hr E. unfold coordinator_update_usage_stats in E.
  destruct (update_usage_stats model r now (usage_data c)) as [u'|] eqn:Eu;
    [|discriminate].
  cbn [mbind option_bind] in E. injection E as <-. rewrite Hb.
  apply update_usage_stats_inv in Eu. rewrite Hr in Eu.
  destruct Eu as (u1 & E1 & Hp).
  destruct (reset_if_needed_frame _ _ _ E1) as [Hdom Hk].
  pose proof (lifetime_of_kept model _ _ Hdom Hk) as Hl.
  rewrite !lifetime_of_entry_of in Hl. injection Hl as Hi Ho Ht.
  destruct Hk as [Htot _].
  pose proof (entry_of_plus model i o t model u1 u' Hp) as He.
  rewrite String.eqb_refl in He.
  destruct Hp as (Pt & _ & _ & _ & _ & _ & _ & (st & st' & _ & Hst' & _) & _).
  assert (Hu' : entry_of model u' = st') by (unfold entry_of; rewrite Hst'; reflexivity).
  rewrite Hu' in He. destruct He as (Ei & Eo & Et & _).
  rewrite Hi in Ei. rewrite Ho in Eo. rewrite Ht in Et.
  split; [|split; [|split]].
  - unfold native_value. cbn. rewrite Pt, Htot. reflexivity.
  - rewrite (native_value_model_token model "input" _ st') by (reflexivity || exact Hst').
    change (model_get ("input" ++ "_tokens") st') with (Some (input_tokens st')).
    rewrite Ei. reflexivity.
  - rewrite (native_value_model_token model "output" _ st') by (reflexivity || exact Hst').
    change (model_get ("output" ++ "_tokens") st') with (Some (output_tokens st')).
    rewrite Eo. reflexivity.
  - rewrite (native_value_model_token model "total" _ st') by (reflexivity || exact Hst').
    change (model_get ("total" ++ "_tokens") st') with (Some (total_tokens st')).
    rewrite Et. reflexivity.
Qed.

Lemma X9_report_then_read_witness :
  data_bound (mkCoordinator scenario_b_store true) = true /\
  reported (usage 3 4 7) = Some (3, 4, 7) /\
  exists c',
    coordinator_update_usage_stats "model-x" (usage 3 4 7) scenario_b_now
      (mkCoordinator scenario_b_store true) = Some c' /\
    native_value (ModelTokenSensor "model-x" "input") c' = (Some 14, c').
Proof.
  split; [reflexivity|]. split; [reflexivity|].
  destruct (coordinator_update_usage_stats "model-x" (usage 3 4 7) scenario_b_now
              (mkCoordinator scenario_b_store true)) as [c'|] eqn:E;
    [|vm_compute in E; discriminate].
  exists c'. split; [reflexivity|].
  exact (proj1 (proj2 (X9_report_then_read "model-x" (usage 3 4 7) scenario_b_now
                         (mkCoordinator scenario_b_store true) c' 3 4 7
                         eq_refl eq_refl E))).
Defined.

Lemma in_model_sensors model sn :
  In sn (model_sensors model) ->
  (exists key, (key = "total" \/ key = "input" \/ key = "output") /\
     sn = ModelTokenSensor model key) \/
  (exists period key,
     (period = "daily" \/ period = "weekly" \/ period = "monthly") /\
     (key = "total" \/ key = "input" \/ key = "output") /\
     sn = PeriodicModelTokenSensor model period key).
Proof.
  unfold model_sensors. cbn. intros H.
  repeat (destruct H as [<-|H];
          [first [left; eexists; split; [|reflexivity]; tauto
                 |right; eexists; eexists; split; [|split; [|reflexivity]]; tauto]|]).
  destruct H.
Qed.

Lemma in_setup_sensors now c sensors c' sn :
  async_setup_entry now c = Some (sensors, c') -> In sn sensors ->
  data_bound c' = true /\
  (sn = TotalCallsSensor \/
   (exists period, (period = "daily" \/ period = "weekly" \/ period = "monthly") /\
      sn = PeriodicCallsSensor period) \/
   (exists model, model ∈ dom (models (usage_data c')) /\ In sn (model_sensors model))).
Proof.
  intros E Hin. unfold async_setup_entry, async_refresh in E.
  destruct (_async_update_data now (usage_data c)) as [u|]; [|discriminate].
  cbn [mbind option_bind usage_data] in E. injection E as <- <-.
  split; [reflexivity|]. cbn [usage_data].
  destruct Hin as [<-|[<-|[<-|[<-|Hin]]]].
  - left. reflexivity.
  - right. left. eexists. split; [|reflexivity]. tauto.
  - right. left. eexists. split; [|reflexivity]. tauto.
  - right. left. eexists. split; [|reflexivity]. tauto.
  - right. right. apply in_flat_map in Hin as (model & Hmodel & Hin).
    exists model. split; [|exact Hin].
    apply in_map_iff in Hmodel as ([k st] & <- & Hk).
    apply list_elem_of_In, elem_of_map_to_list in Hk.
    apply elem_of_dom. exists st. exact Hk.
Qed.

(** X10: every sensor [async_setup_entry] creates reads a number: on any
    later coordinator whose [data] is bound and whose models still include
    those present at setup, [native_value] of such a sensor is an integer
    (never [None]) and the read leaves the store as it is. *)
Theorem X10_setup_sensors_read_values (now : datetime) (c : Coordinator)
    (sensors : list Sensor) (c' : Coordinator) :
  async_setup_entry now c = Some (sensors, c') ->
  forall c'' sn,
    data_bound c'' = true ->
    dom (models (usage_data c')) ⊆ dom (models (usage_data c'')) ->
    In sn sensors ->
    exists v, native_value sn c'' = (Some v, c'').
Proof.
  intros E c'' sn Hb Hsub Hin.
  destruct (in_setup_sensors _ _ _ _ _ E Hin) as [_ [->|[(p & Hp & ->)|(m & Hm & Hs)]]].
  - eexists. unfold native_value. rewrite Hb. reflexivity.
  - unfold native_value. rewrite Hb.
    destruct Hp as [-> | [-> | ->]]; eexists; reflexivity.
  - apply Hsub, elem_of_dom in Hm as [st Hst].
    apply in_model_sensors in Hs as [(k & Hk & ->)|(p & k & Hp & Hk & ->)].
    + rewrite (native_value_model_token m k c'' st Hb Hst).
      destruct Hk as [-> | [-> | ->]]; eexists; reflexivity.
    + rewrite (native_value_periodic_model_token m p k c'' st Hb Hst).
      destruct Hp as [-> | [-> | ->]], Hk as [-> | [-> | ->]]; eexists; reflexivity.
Qed.

Lemma X10_setup_sensors_read_values_witness :
  exists sensors c',
    async_setup_entry scenario_b_now (mkCoordinator scenario_b_store false)
      = Some (sensors, c') /\
    In (PeriodicModelTokenSensor "model-x" "daily" "input") sensors /\
    exists v, native_value (PeriodicModelTokenSensor "model-x" "daily" "input") c'
              = (Some v, c').
Proof.
  destruct (async_setup_entry scenario_b_now (mkCoordinator scenario_b_store false))
    as [[sensors c']|] eqn:E; [|vm_compute in E; discriminate].
  exists sensors, c'. split; [reflexivity|].
  assert (Hin : In (PeriodicModelTokenSensor "model-x" "daily" "input") sensors).
  { vm_compute in E. injection E as <- <-. cbn. tauto. }
  split; [exact Hin|].
  assert (Hb : data_bound c' = true).
  { vm_compute in E. injection E as <- <-. reflexivity. }
  exact (X10_setup_sensors_read_values _ _ _ _ E c' _ Hb (reflexivity _) Hin).
Defined.

(** X11: a store that has received no report gets no model sensor: on a
    fresh store, [async_setup_entry] binds [data] and creates exactly the
    total-calls sensor and the three periodic call sensors. *)
Theorem X11_fresh_store_has_four_sensors (t0 now : datetime) :
  clock_ok t0 -> valid_datetime now ->
  exists u0 c',
    init t0 = Some u0 /\
    async_setup_entry now (mkCoordinator u0 false)
      = Some ([TotalCallsSensor; PeriodicCallsSensor "daily";
               PeriodicCallsSensor "weekly"; PeriodicCallsSensor "monthly"], c') /\
    data_bound c' = true /\ models (usage_data c') = ∅.
Proof.
  intros Ht0 Hnow.
  destruct (init_spec t0 Ht0) as (u0 & E0 & Hu0 & _ & Hm).
  destruct (reset_if_needed_spec now u0 Hnow Hu0)
    as (dd & dw & sw & u1 & _ & _ & _ & _ & _ & _ & _ & E1 & Hafter).
  destruct Hafter as (_ & _ & _ & _ & _ & _ & _ & Hdom & _).
  assert (Hm1 : models u1 = ∅).
  { apply (dom_empty_iff_L (D:=gset string)). rewrite Hdom, Hm. apply dom_empty_L. }
  exists u0, (mkCoordinator u1 true). split; [exact E0|].
  split; [|split; [reflexivity|exact Hm1]].
  unfold async_setup_entry, async_refresh, _async_update_data. cbn [usage_data].
  rewrite E1. cbn [mbind option_bind usage_data]. rewrite Hm1, map_to_list_empty.
  reflexivity.
Qed.

Lemma X11_fresh_store_has_four_sensors_witness :
  clock_ok scenario_created /\ valid_datetime scenario_b_now /\
  exists u0 c',
    init scenario_created = Some u0 /\
    async_setup_entry scenario_b_now (mkCoordinator u0 false)
      = Some ([TotalCallsSensor; PeriodicCallsSensor "daily";
               PeriodicCallsSensor "weekly"; PeriodicCallsSensor "monthly"], c').
Proof.
  assert (Hc : clock_ok scenario_created) by solve_concrete.
  assert (Hv : valid_datetime scenario_b_now) by solve_concrete.
  split; [exact Hc|]. split; [exact Hv|].
  destruct (X11_fresh_store_has_four_sensors _ _ Hc Hv) as (u0 & c' & E0 & E & _).
  exists u0, c'. split; [exact E0|exact E].
Defined.

(** ** Sensor identifiers *)

Lemma string_app_assoc (a b c : string) : (a ++ b) ++ c = a ++ b ++ c.
Proof.
  induction a as [|x a IH]; [reflexivity|].
  change (String x ((a ++ b) ++ c) = String x (a ++ b ++ c)). rewrite IH. reflexivity.
Qed.



Lemma in_setup_sensors_of_model now c sensors c' model sn :
  async_setup_entry now c = Some (sensors, c') ->
  model ∈ dom (models (usage_data c')) -> In sn (model_sensors model) ->
  In sn sensors.
Proof.
  intros E Hm Hs. unfold async_setup_entry, async_refresh in E.
  destruct (_async_update_data now (usage_data c)) as [u|]; [|discriminate].
  cbn [mbind option_bind usage_data] in E. injection E as <- <-.
  cbn [usage_data] in Hm. do 4 right.
  apply in_flat_map. exists model. split; [|exact Hs].
  apply elem_of_dom in Hm as [st Hst].
  apply in_map_iff. exists (model, st). split; [reflexivity|].
  apply list_elem_of_In, elem_of_map_to_list. exact Hst.
Qed.

(** X12: sensor identifiers can collide across models: when [models] has
    the keys [m] and [m_p] for a period key [p], [async_setup_entry]
    creates the lifetime token sensor of [m_p] and the periodic token
    sensor of [m] for [p], two different sensors with the same
    [unique_id]. *)
Theorem X12_unique_id_collision (entry_id : string) (now : datetime)
    (c : Coordinator) (sensors : list Sensor) (c' : Coordinator)
    (m p k : string) :
  async_setup_entry now c = Some (sensors, c') ->
  m ∈ dom (models (usage_data c')) ->
  (m ++ "_" ++ p) ∈ dom (models (usage_data c')) ->
  p = "daily" \/ p = "weekly" \/ p = "monthly" ->
  k = "total" \/ k = "input" \/ k = "output" ->
  In (ModelTokenSensor (m ++ "_" ++ p) k) sensors /\
  In (PeriodicModelTokenSensor m p k) sensors /\
  ModelTokenSensor (m ++ "_" ++ p) k <> PeriodicModelTokenSensor m p k /\
  unique_id entry_id (ModelTokenSensor (m ++ "_" ++ p) k)
  = unique_id entry_id (PeriodicModelTokenSensor m p k).
Proof.
  intros E Hm Hmp Hp Hk. split; [|split; [|split]].
  - apply (in_setup_sensors_of_model _ _ _ _ _ _ E Hmp).
    unfold model_sensors. destruct Hk as [-> | [-> | ->]]; cbn; tauto.
  - apply (in_setup_sensors_of_model _ _ _ _ _ _ E Hm).
    unfold model_sensors.
    destruct Hp as [-> | [-> | ->]], Hk as [-> | [-> | ->]]; cbn; tauto.
  - discriminate.
  - unfold unique_id. rewrite !string_app_assoc. reflexivity.
Qed.

Lemma X12_unique_id_collision_witness :
  exists sensors c',
    async_setup_entry scenario_b_now
      (mkCoordinator
         (mkUsageData 2 1 2 2 (mkdatetime 2024 1 16 0 0 0 0)
            (mkdatetime 2024 1 15 0 0 0 0) (mkdatetime 2024 1 1 0 0 0 0)
            (<["m_daily" := default_model_stats]> {["m" := default_model_stats]}))
         false) = Some (sensors, c') /\
    In (ModelTokenSensor "m_daily" "input") sensors /\
    In (PeriodicModelTokenSensor "m" "daily" "input") sensors /\
    unique_id "e" (ModelTokenSensor "m_daily" "input")
    = unique_id "e" (PeriodicModelTokenSensor "m" "daily" "input").
Proof.
  destruct (async_setup_entry scenario_b_now
      (mkCoordinator
         (mkUsageData 2 1 2 2 (mkdatetime 2024 1 16 0 0 0 0)
            (mkdatetime 2024 1 15 0 0 0 0) (mkdatetime 2024 1 1 0 0 0 0)
            (<["m_daily" := default_model_stats]> {["m" := default_model_stats]}))
         false)) as [[sensors c']|] eqn:E; [|vm_compute in E; discriminate].
  exists sensors, c'. split; [reflexivity|].
  assert (Hd : dom (models (usage_data c')) = {["m_daily"; "m"]}).
  { vm_compute in E. injection E as <- <-. cbn [usage_data models].
    apply set_eq. intros x. rewrite elem_of_dom. set_unfold.
    split.
    - intros [st Hst]. destruct (decide (x = "m_daily")) as [->|]; [tauto|].
      destruct (decide (x = "m")) as [->|]; [tauto|].
      exfalso. revert Hst.
      change (<["m_daily":=default_model_stats]> ({["m":=default_model_stats]} : gmap string ModelStats) !! x = Some st -> False).
      rewrite lookup_insert_ne, lookup_singleton_ne by congruence. discriminate.
    - intros [-> | ->]; eexists; vm_compute; reflexivity. }
  assert (H1 : "m" ∈ dom (models (usage_data c'))) by (rewrite Hd; set_solver).
  assert (H2 : ("m" ++ "_" ++ "daily") ∈ dom (models (usage_data c')))
    by (rewrite Hd; change ("m" ++ "_" ++ "daily") with "m_daily"; set_solver).
  destruct (X12_unique_id_collision "e" _ _ _ _ "m" "daily" "input" E H1 H2
              (or_introl eq_refl) (or_intror (or_introl eq_refl)))
    as (I1 & I2 & _ & Hid).
  split; [exact I1|]. split; [exact I2|exact Hid].
Defined.




(** ** Order of reports, and the sensors' window starts *)

Lemma reported_sum_perm name calls calls' :
  Permutation calls calls' -> reported_sum name calls = reported_sum name calls'.
Proof.
  induction 1 as [|c l l' _ IH|a b l|l1 l2 l3 _ IH1 _ IH2].
  - reflexivity.
  - cbn [reported_sum]. rewrite IH. reflexivity.
  - cbn [reported_sum]. destruct (reported_sum name l) as [[si so] st].
    destruct (reported (call_result a)) as [[[ia oa] ta]|],
      (reported (call_result b)) as [[[ib ob] tb]|];
      destruct (String.eqb (call_model a) name), (String.eqb (call_model b) name);
      try reflexivity; apply triple_eq; lia.
  - congruence.
Qed.

(** X15: reports that arrive while no reset is due commute: any
    reordering of such a sequence of reports leads to the same store. *)
Theorem X15_reports_within_windows_commute (calls calls' : list Call)
    (u : UsageData) :
  Permutation calls calls' ->
  Forall (fun c => no_reset_due (call_now c) u /\
                   is_Some (usage_metadata (call_result c))) calls ->
  exists u', record_all calls u = Some u' /\ record_all calls' u = Some u'.
Proof.
  intros Hperm Hall.
  assert (Hall' : Forall (fun c => no_reset_due (call_now c) u /\
                   is_Some (usage_metadata (call_result c))) calls')
    by (rewrite <- Hperm; exact Hall).
  destruct (record_all_quiet calls u Hall)
    as (u1 & E1 & Ht1 & Hd1 & Hw1 & Hm1 & Hld1 & Hlw1 & Hlm1 & Hdom1 & Hent1).
  destruct (record_all_quiet calls' u Hall')
    as (u2 & E2 & Ht2 & Hd2 & Hw2 & Hm2 & Hld2 & Hlw2 & Hlm2 & Hdom2 & Hent2).
  exists u1. split; [exact E1|]. rewrite E2. f_equal.
  assert (Hlen : length calls' = length calls) by (symmetry; apply Permutation_length, Hperm).
  assert (Hdom : dom (models u2) = dom (models u1)).
  { rewrite Hdom1, Hdom2. f_equal. apply set_eq. intros x.
    rewrite !elem_of_list_to_set. rewrite <- Hperm. reflexivity. }
  assert (Hmods : models u2 = models u1).
  { apply map_eq. intros name. specialize (Hent1 name). specialize (Hent2 name).
    rewrite <- (reported_sum_perm name calls calls' Hperm) in Hent2.
    destruct (reported_sum name calls) as [[i o] t].
    pose proof (entry_plus_functional _ _ _ _ _ _ Hent2 Hent1) as He.
    unfold entry_of in He.
    destruct (models u2 !! name) as [s2|] eqn:L2, (models u1 !! name) as [s1|] eqn:L1.
    - cbn in He. congruence.
    - exfalso. apply (not_elem_of_dom (models u1) name) in L1. apply L1.
      rewrite <- Hdom. apply elem_of_dom. eauto.
    - exfalso. apply (not_elem_of_dom (models u2) name) in L2. apply L2.
      rewrite Hdom. apply elem_of_dom. eauto.
    - reflexivity. }
  destruct u1, u2. cbn in *. rewrite Hlen in *. f_equal; congruence.
Qed.

Lemma X15_reports_within_windows_commute_witness :
  Permutation
    [mkCall "model-x" (usage 1 2 3) scenario_b_now;
     mkCall "model-y" (usage 4 5 9) (mkdatetime 2024 1 16 23 59 59 0)]
    [mkCall "model-y" (usage 4 5 9) (mkdatetime 2024 1 16 23 59 59 0);
     mkCall "model-x" (usage 1 2 3) scenario_b_now] /\
  exists u',
    record_all [mkCall "model-x" (usage 1 2 3) scenario_b_now;
                mkCall "model-y" (usage 4 5 9) (mkdatetime 2024 1 16 23 59 59 0)]
      scenario_b_store = Some u' /\
    record_all [mkCall "model-y" (usage 4 5 9) (mkdatetime 2024 1 16 23 59 59 0);
                mkCall "model-x" (usage 1 2 3) scenario_b_now]
      scenario_b_store = Some u'.
Proof.
  assert (Hp : Permutation
    [mkCall "model-x" (usage 1 2 3) scenario_b_now;
     mkCall "model-y" (usage 4 5 9) (mkdatetime 2024 1 16 23 59 59 0)]
    [mkCall "model-y" (usage 4 5 9) (mkdatetime 2024 1 16 23 59 59 0);
     mkCall "model-x" (usage 1 2 3) scenario_b_now]) by apply perm_swap.
  split; [exact Hp|].
  apply (X15_reports_within_windows_commute _ _ _ Hp).
  constructor; [|constructor; [|constructor]].
  all: split; [|eexists; reflexivity].
  all: eexists; eexists; split; [vm_compute; reflexivity|];
    split; [vm_compute; reflexivity|]; repeat split.
Defined.

(** X14: after a refresh, the [last_reset] property of a periodic sensor is
    the start of a window that has begun: on a store whose windows did not
    start after [now], the refresh binds [data], and for each of the three
    period keys [last_reset] is the stored window start, an instant not
    after [now]; for any other key it is [None]. *)
Theorem X14_last_reset_after_refresh (now : datetime) (c : Coordinator) :
  valid_datetime now -> store_ok (usage_data c) ->
  datetime_ge now (last_reset_daily (usage_data c)) = true ->
  datetime_ge now (last_reset_weekly (usage_data c)) = true ->
  datetime_ge now (last_reset_monthly (usage_data c)) = true ->
  exists c',
    async_refresh now c = Some c' /\ data_bound c' = true /\
    last_reset "daily" c' = Some (last_reset_daily (usage_data c')) /\
    last_reset "weekly" c' = Some (last_reset_weekly (usage_data c')) /\
    last_reset "monthly" c' = Some (last_reset_monthly (usage_data c')) /\
    (forall p s, last_reset p c' = Some s -> datetime_ge now s = true) /\
    (forall p, p <> "daily" -> p <> "weekly" -> p <> "monthly" ->
               last_reset p c' = None).
Proof.
  intros Hnow Hu Gd Gw Gm.
  destruct (reset_if_needed_windows now (usage_data c) Hnow Hu Gd Gw Gm)
    as (u' & E & Hd & _ & Hw & _ & Hm & _).
  exists (mkCoordinator u' true).
  split; [unfold async_refresh, _async_update_data; rewrite E; reflexivity|].
  split; [reflexivity|]. split; [reflexivity|]. split; [reflexivity|].
  split; [reflexivity|]. split.
  - intros p s. unfold last_reset, usage_get_datetime. cbn [data_bound usage_data].
    destruct (String.eqb ("last_reset_" ++ p) "last_reset_daily");
      [intros [= <-]; exact Hd|].
    destruct (String.eqb ("last_reset_" ++ p) "last_reset_weekly");
      [intros [= <-]; exact Hw|].
    destruct (String.eqb ("last_reset_" ++ p) "last_reset_monthly");
      [intros [= <-]; exact Hm|discriminate].
  - intros p H1 H2 H3. unfold last_reset, usage_get_datetime. cbn [data_bound].
    assert (Hne : forall q, p <> q ->
              String.eqb ("last_reset_" ++ p) ("last_reset_" ++ q) = false).
    { intros q Hq. apply String.eqb_neq. intros Heq.
      apply (String.app_inj "last_reset_") in Heq. contradiction. }
    change "last_reset_daily" with ("last_reset_" ++ "daily").
    change "last_reset_weekly" with ("last_reset_" ++ "weekly").
    change "last_reset_monthly" with ("last_reset_" ++ "monthly").
    rewrite !Hne by assumption. reflexivity.
Qed.

Lemma X14_last_reset_after_refresh_witness :
  valid_datetime (mkdatetime 2024 2 25 10 0 0 0) /\
  store_ok (usage_data (mkCoordinator scenario_b_store false)) /\
  exists c',
    async_refresh (mkdatetime 2024 2 25 10 0 0 0)
      (mkCoordinator scenario_b_store false) = Some c' /\
    last_reset "weekly" c' = Some (last_reset_weekly (usage_data c')).
Proof.
  assert (Hv : valid_datetime (mkdatetime 2024 2 25 10 0 0 0)) by solve_concrete.
  assert (Hu : store_ok (usage_data (mkCoordinator scenario_b_store false)))
    by solve_concrete.
  split; [exact Hv|]. split; [exact Hu|].
  destruct (X14_last_reset_after_refresh _ _ Hv Hu eq_refl eq_refl eq_refl)
    as (c' & E & _ & _ & Hw & _).
  exists c'. split; [exact E|exact Hw].
Defined.
